(** * A shallow embedding of [claude.py], the command-line chat client.

    The program is a read-eval-print loop: a logical line is read from the
    console, routed through [process_commands], and, when it is no command,
    appended to the conversation and sent to the remote model, whose streamed
    reply is printed and appended in turn.

    Conventions of the embedding.
    - Python strings are [string]s whose characters are the code points
      below 256; [lower] and [strip] act on them as [str.lower] and
      [str.strip] do.
    - Python [int] is [Z].  [float], [int()], [float()], [json.dump] and the
      text of the [ValueError]s are library code: they are the fields of the
      class [PyRuntime].
    - The console, the log file, the clock, the environment and the remote
      service make up the rest of the machine state [State]; the conversation
      list and the configuration object live there too, because the chat loop
      and [process_commands] mutate them in place.
    - Exceptions are values of [exn]; a computation is a function from the
      state to an [outcome] and the state it leaves behind.
    - The console delivers lines, ends of input and interrupts; an interrupt
      is met where [input()] is called.  The errors of the service and of
      the disk are exceptions below [Exception]. *)

From Stdlib Require Import String Ascii List ZArith Bool Lia.
From Stdlib Require Import DecimalString.
Import ListNotations.
Open Scope string_scope.

(** ** Python string operations *)

Module PyStr.

(** [s.startswith(p)] *)
Fixpoint startswith (p s : string) : bool :=
  match p, s with
  | EmptyString, _ => true
  | String a p', String b s' => if Ascii.eqb a b then startswith p' s' else false
  | String _ _, EmptyString => false
  end.

(** [s[n:]] *)
Fixpoint drop (n : nat) (s : string) : string :=
  match n, s with
  | O, _ => s
  | S n', String _ s' => drop n' s'
  | S _, EmptyString => EmptyString
  end.

(** [str.lower] on one character: the capitals A-Z and, above the ASCII
    range, the capitals 0xc0-0xde other than the multiplication sign 0xd7
    move up by 32; every other character stays. *)
Definition lower_char (c : ascii) : ascii :=
  let n := nat_of_ascii c in
  if orb (andb (Nat.leb 65 n) (Nat.leb n 90))
         (andb (andb (Nat.leb 192 n) (Nat.leb n 222)) (negb (Nat.eqb n 215)))
  then ascii_of_nat (n + 32) else c.

(** [s.lower()] *)
Fixpoint lower (s : string) : string :=
  match s with
  | EmptyString => EmptyString
  | String c s' => String (lower_char c) (lower s')
  end.

(** The characters for which [str.isspace] holds: tab, line feed,
    vertical tab, form feed, carriage return, the four separators
    0x1c-0x1f, the space, the next-line character 0x85 and the no-break
    space 0xa0. *)
Definition is_space (c : ascii) : bool :=
  let n := nat_of_ascii c in
  orb (andb (Nat.leb 9 n) (Nat.leb n 13))
      (orb (andb (Nat.leb 28 n) (Nat.leb n 31))
           (orb (Nat.eqb n 32) (orb (Nat.eqb n 133) (Nat.eqb n 160)))).

Fixpoint lstrip (s : string) : string :=
  match s with
  | EmptyString => EmptyString
  | String c s' => if is_space c then lstrip s' else s
  end.

Fixpoint rstrip (s : string) : string :=
  match s with
  | EmptyString => EmptyString
  | String c s' =>
      match rstrip s' with
      | EmptyString => if is_space c then EmptyString else String c EmptyString
      | r => String c r
      end
  end.

(** [s.strip()] *)
Definition strip (s : string) : string := rstrip (lstrip s).

(** [sep.join(l)] *)
Fixpoint join (sep : string) (l : list string) : string :=
  match l with
  | [] => EmptyString
  | [x] => x
  | x :: rest => x ++ sep ++ join sep rest
  end.

(** [x in l] for a list of strings *)
Definition mem (x : string) (l : list string) : bool :=
  existsb (String.eqb x) l.

(** [str(n)] for an [int] *)
Definition str_int (n : Z) : string := NilZero.string_of_int (Z.to_int n).

Definition nl : string := String (ascii_of_nat 10) EmptyString.
Definition backslash : string := String (ascii_of_nat 92) EmptyString.

End PyStr.
Import PyStr.

(** ** Data model *)

(** One entry of [conversation_history]: a dict with the keys ["role"] and
    ["content"]. *)
Record Turn : Type := mkTurn { role : string; content : string }.

(** The library functions the program calls. *)
Class PyRuntime : Type := {
  pyfloat : Type;
  (** [float(s)]: the number, or [None] where Python raises [ValueError] *)
  float_of_str : string -> option pyfloat;
  (** [str(e)] of the [ValueError] of [float(s)] *)
  float_error : string -> string;
  (** [str(x)] for a float, as an f-string prints it *)
  str_float : pyfloat -> string;
  (** [int(s)] *)
  int_of_str : string -> option Z;
  (** [str(e)] of the [ValueError] of [int(s)] *)
  int_error : string -> string;
  (** the default [temperature], 0.8 *)
  float_0_8 : pyfloat;
  (** the text [json.dump(history, file, indent=2)] writes *)
  json_dump : list Turn -> string
}.

Section Program.

Context {RT : PyRuntime}.

(** [ClaudeConfig] *)
Record ClaudeConfig : Type := mkConfig {
  max_tokens : Z;
  temperature : pyfloat;
  model : string;
  system_prompt : string
}.

Definition default_config : ClaudeConfig :=
  {| max_tokens := 1024;
     temperature := float_0_8;
     model := "claude-3-5-sonnet-latest";
     system_prompt := "You are a good Claude!" |}.

(** Exceptions.  [Exception] stands for every exception class below
    [Exception] other than [EOFError]; it carries the class name and
    [str(e)]. *)
Inductive exn : Type :=
| EOFError
| KeyboardInterrupt
| SystemExit (code : Z)
| Exception (cls : string) (descr : string).

(** What one call of [input()] finds on the console. *)
Inductive console_event : Type :=
| Line (s : string)
| Eof
| Interrupt.

(** One event of the response stream: a [content_block_delta] with its
    [delta.text], or an event of another type. *)
Inductive Chunk : Type :=
| ContentBlockDelta (text : string)
| OtherEvent (type : string).

(** The keyword arguments of [client.messages.create], with the API key the
    client was built with. *)
Record Request : Type := mkRequest {
  req_api_key : option string;
  req_model : string;
  req_system : string;
  req_messages : list Turn;
  req_max_tokens : Z;
  req_temperature : pyfloat;
  req_stream : bool
}.

(** The remote service's answer to one request: the call itself raises, or
    it returns a stream that yields the chunks and then ends or raises. *)
Inductive Reply : Type :=
| CreateFails (cls descr : string)
| Stream (chunks : list Chunk) (failure : option (string * string)).

(** Where a [/save] meets an I/O error, if anywhere: at [open], or at the
    n-th write into the file (0, 1 or 2). *)
Inductive save_fault : Type :=
| OpenFails (descr : string)
| WriteFails (n : nat) (descr : string).

Record State : Type := mkState {
  (** the list object the loop's [conversation_history] refers to *)
  history : list Turn;
  (** the [ClaudeConfig] object *)
  config : ClaudeConfig;
  (** what the coming calls of [input()] find *)
  stdin : list console_event;
  (** what was written to standard output, one entry per [print] *)
  stdout : list string;
  (** what was appended to [claude_hist.txt], one entry per write *)
  log_file : list string;
  (** [datetime.now().strftime(...)] *)
  clock : string;
  (** [os.getenv("ANTHROPIC_API_KEY")] *)
  api_key : option string;
  (** the requests sent so far *)
  requests : list Request;
  (** the service's answer to the n-th request *)
  remote : nat -> Request -> Reply;
  (** the I/O error the n-th [/save] meets *)
  disk : nat -> option save_fault;
  (** the number of [/save] commands started so far *)
  saves : nat
}.

(** Field updates. *)
Definition set_history (h : list Turn) (st : State) : State :=
  mkState h (config st) (stdin st) (stdout st) (log_file st) (clock st)
          (api_key st) (requests st) (remote st) (disk st) (saves st).
Definition set_config (c : ClaudeConfig) (st : State) : State :=
  mkState (history st) c (stdin st) (stdout st) (log_file st) (clock st)
          (api_key st) (requests st) (remote st) (disk st) (saves st).
Definition set_stdin (i : list console_event) (st : State) : State :=
  mkState (history st) (config st) i (stdout st) (log_file st) (clock st)
          (api_key st) (requests st) (remote st) (disk st) (saves st).
Definition set_stdout (o : list string) (st : State) : State :=
  mkState (history st) (config st) (stdin st) o (log_file st) (clock st)
          (api_key st) (requests st) (remote st) (disk st) (saves st).
Definition set_log_file (l : list string) (st : State) : State :=
  mkState (history st) (config st) (stdin st) (stdout st) l (clock st)
          (api_key st) (requests st) (remote st) (disk st) (saves st).
Definition set_requests (r : list Request) (st : State) : State :=
  mkState (history st) (config st) (stdin st) (stdout st) (log_file st)
          (clock st) (api_key st) r (remote st) (disk st) (saves st).
Definition set_saves (n : nat) (st : State) : State :=
  mkState (history st) (config st) (stdin st) (stdout st) (log_file st)
          (clock st) (api_key st) (requests st) (remote st) (disk st) n.

(** ** Computations that read and write the state and may raise *)

Inductive outcome (A : Type) : Type :=
| Ok (a : A)
| Raise (e : exn).
Arguments Ok {A} a.
Arguments Raise {A} e.

Definition M (A : Type) : Type := State -> outcome A * State.

Definition ret {A} (a : A) : M A := fun st => (Ok a, st).
Definition raise {A} (e : exn) : M A := fun st => (Raise e, st).
Definition bind {A B} (m : M A) (k : A -> M B) : M B :=
  fun st =>
    match m st with
    | (Ok a, st') => k a st'
    | (Raise e, st') => (Raise e, st')
    end.
Definition get : M State := fun st => (Ok st, st).
Definition modify (f : State -> State) : M unit := fun st => (Ok tt, f st).

(** [try: m  except EOFError: h] *)
Definition except_EOFError {A} (m : M A) (h : M A) : M A :=
  fun st =>
    match m st with
    | (Raise EOFError, st') => h st'
    | r => r
    end.

Notation "x <- m ;; k" := (bind m (fun x => k))
  (at level 61, m at next level, right associativity).
Notation "m ;;; k" := (bind m (fun _ => k))
  (at level 61, right associativity).

Definition IndexError {A} : M A :=
  raise (Exception "IndexError" "list index out of range").

(** [print(s, end=e)] and [print(s)] *)
Definition print_end (s e : string) : M unit :=
  modify (fun st => set_stdout (stdout st ++ [s ++ e]) st).
Definition print (s : string) : M unit := print_end s nl.

(** [input()] *)
Definition input : M string :=
  fun st =>
    match stdin st with
    | [] => (Raise EOFError, st)
    | Line l :: rest => (Ok l, set_stdin rest st)
    | Eof :: rest => (Raise EOFError, set_stdin rest st)
    | Interrupt :: rest => (Raise KeyboardInterrupt, set_stdin rest st)
    end.

(** [sys.exit()] and [sys.exit(0)]: both end the process with status 0. *)
Definition sys_exit {A} : M A := raise (SystemExit 0).

(** [show_help] *)
Definition show_help : M unit :=
  print "Available commands:" ;;;
  print "/sys <new_prompt> - Change the system prompt" ;;;
  print "/temp <value> - Change the temperature" ;;;
  print "/max <value> - Change the max tokens" ;;;
  print "/env - Show the current environment settings" ;;;
  print "/new - Clear the conversation history" ;;;
  print "/exit, /quit, /bye - Exit the chat" ;;;
  print "/help - Show this help".

(** The [while True: line = input(); lines.append(line)] loop of
    [read_multiline_input], run on the console events still to come: it
    ends at the first [Eof] (or when nothing is left, which is an end of
    input too) with the collected lines, or at an [Interrupt]. *)
Fixpoint read_more (evs : list console_event) (lines : list string)
  : outcome (list string) * list console_event :=
  match evs with
  | [] => (Ok lines, [])
  | Line l :: rest => read_more rest (lines ++ [l])
  | Eof :: rest => (Ok lines, rest)
  | Interrupt :: rest => (Raise KeyboardInterrupt, rest)
  end.

(** [read_multiline_input] *)
Definition read_multiline_input (prompt : string) : M string :=
  print_end prompt EmptyString ;;;
  line <- except_EOFError input sys_exit ;;
  if negb (startswith backslash line) then ret line
  else
    fun st =>
      match read_more (stdin st) [line] with
      | (Ok lines, rest) =>
          (print (nl ++ "<end of input>" ++ nl) ;;; ret (join nl lines))
            (set_stdin rest st)
      | (Raise e, rest) => (Raise e, set_stdin rest st)
      end.

(** [conversation_history[0]] *)
Definition history_0 : M Turn :=
  st <- get ;;
  match history st with
  | [] => IndexError
  | t :: _ => ret t
  end.

(** [conversation_history[0]["content"] = v], in place *)
Definition set_system_content (v : string) : M unit :=
  st <- get ;;
  match history st with
  | [] => IndexError
  | t :: rest => modify (set_history (mkTurn (role t) v :: rest))
  end.

(** [config.temperature = x] and [config.max_tokens = n], in place *)
Definition set_temperature (x : pyfloat) : M unit :=
  modify (fun st =>
    let c := config st in
    set_config (mkConfig (max_tokens c) x (model c) (system_prompt c)) st).
Definition set_max_tokens (n : Z) : M unit :=
  modify (fun st =>
    let c := config st in
    set_config (mkConfig n (temperature c) (model c) (system_prompt c)) st).

(** [open('claude_hist.txt', 'a')]: the handle remembers the fault the
    writes of this [/save] will meet. *)
Definition open_log : M (option save_fault) :=
  st <- get ;;
  modify (set_saves (S (saves st))) ;;;
  match disk st (saves st) with
  | Some (OpenFails d) => raise (Exception "OSError" d)
  | f => ret f
  end.

(** The [n]-th write through the handle. *)
Definition file_write (file : option save_fault) (n : nat) (s : string)
  : M unit :=
  match file with
  | Some (WriteFails k d) =>
      if Nat.eqb k n then raise (Exception "OSError" d)
      else modify (fun st => set_log_file (log_file st ++ [s]) st)
  | _ => modify (fun st => set_log_file (log_file st ++ [s]) st)
  end.

Definition handled (h : list Turn)
  : M (option bool * list Turn * ClaudeConfig) :=
  st <- get ;; ret (Some true, h, config st).

(** [process_commands(user_input, conversation_history, config)], called
    with the list and the configuration object of the state.  The result is
    the returned triple; its second component is the list the local name
    [conversation_history] is bound to at the [return], which the [/save]
    and [/new] branches rebind to a fresh one-element list. *)
Definition process_commands (user_input : string)
  : M (option bool * list Turn * ClaudeConfig) :=
  if startswith "/sys" user_input then
    set_system_content (strip (drop 5 user_input)) ;;;
    t <- history_0 ;;
    print ("System prompt changed to: " ++ content t) ;;;
    st <- get ;; handled (history st)
  else if startswith "/temp" user_input then
    match float_of_str (strip (drop 5 user_input)) with
    | None =>
        raise (Exception "ValueError" (float_error (strip (drop 5 user_input))))
    | Some x =>
        set_temperature x ;;;
        st <- get ;;
        print ("Temperature changed to: " ++ str_float (temperature (config st))) ;;;
        handled (history st)
    end
  else if startswith "/max" user_input then
    match int_of_str (strip (drop 4 user_input)) with
    | None =>
        raise (Exception "ValueError" (int_error (strip (drop 4 user_input))))
    | Some n =>
        set_max_tokens n ;;;
        st <- get ;;
        print ("Max tokens changed to: " ++ str_int (max_tokens (config st))) ;;;
        handled (history st)
    end
  else if String.eqb (lower user_input) "/env" then
    t <- history_0 ;;
    print ("System prompt: " ++ content t) ;;;
    st <- get ;;
    print ("Temperature: " ++ str_float (temperature (config st))) ;;;
    print ("Max tokens: " ++ str_int (max_tokens (config st))) ;;;
    handled (history st)
  else if String.eqb (lower user_input) "/save" then
    file <- open_log ;;
    st <- get ;;
    file_write file 0 (nl ++ clock st ++ nl) ;;;
    file_write file 1 (json_dump (history st)) ;;;
    file_write file 2 nl ;;;
    t <- history_0 ;;
    print "Conversation appended to log" ;;;
    handled [t]
  else if String.eqb (lower user_input) "/new" then
    t <- history_0 ;;
    print "Conversation history cleared." ;;;
    handled [t]
  else if orb (startswith "/help" (lower user_input))
              (String.eqb user_input EmptyString) then
    show_help ;;;
    st <- get ;; handled (history st)
  else if mem (lower user_input) ["/exit"; "/quit"; "/bye"] then
    print "Exiting gracefully..." ;;;
    sys_exit
  else
    st <- get ;; ret (None, history st, config st).

(** The role [ask_claude] sends for a turn. *)
Definition api_role (msg : Turn) : string :=
  if String.eqb (role msg) "assistant" then "assistant" else "user".

(** [client.messages.create(...)]: the request goes out and the service
    answers it. *)
Definition messages_create (req : Request)
  : M (list Chunk * option (string * string)) :=
  st <- get ;;
  modify (set_requests (requests st ++ [req])) ;;;
  match remote st (length (requests st)) req with
  | CreateFails cls d => raise (Exception cls d)
  | Stream chunks failure => ret (chunks, failure)
  end.

(** [ask_claude(messages, config)] *)
Definition ask_claude (messages : list Turn) (cfg : ClaudeConfig)
  : M (list Chunk * option (string * string)) :=
  st <- get ;;
  let messages_formatted :=
    map (fun msg => mkTurn (api_role msg) (content msg)) (tl messages) in
  match messages with
  | [] => IndexError
  | m0 :: _ =>
      messages_create
        (mkRequest (api_key st) (model cfg) (content m0) messages_formatted
                   (max_tokens cfg) (temperature cfg) true)
  end.

(** The [for chunk in response_stream] loop of [chat]: the text of every
    [content_block_delta] is printed and added to [assistant_reply]; the
    loop raises where the stream does. *)
Fixpoint consume (chunks : list Chunk) (failure : option (string * string))
    (assistant_reply : string) : M string :=
  match chunks with
  | [] =>
      match failure with
      | None => ret assistant_reply
      | Some (cls, d) => raise (Exception cls d)
      end
  | ContentBlockDelta chunk_content :: rest =>
      print_end chunk_content EmptyString ;;;
      consume rest failure (assistant_reply ++ chunk_content)
  | OtherEvent _ :: rest => consume rest failure assistant_reply
  end.

(** [conversation_history.append(t)], in place *)
Definition history_append (t : Turn) : M unit :=
  modify (fun st => set_history (history st ++ [t]) st).

(** The part of the loop body under [# Normal message handling] and
    [# Process response]. *)
Definition chat_message (user_input : string) : M unit :=
  history_append (mkTurn "user" user_input) ;;;
  st <- get ;;
  response_stream <- ask_claude (history st) (config st) ;;
  print EmptyString ;;;
  assistant_reply <- consume (fst response_stream) (snd response_stream) EmptyString ;;
  history_append (mkTurn "assistant" (assistant_reply ++ nl)) ;;;
  print nl.

(** The loop body from [# Handle commands] on, for the logical input that
    was read. *)
Definition chat_dispatch (user_input : string) : M unit :=
  r <- process_commands user_input ;;
  let '(command_result, conversation_history, cfg) := r in
  modify (set_history conversation_history) ;;;
  modify (set_config cfg) ;;;
  match command_result with
  | Some _ => ret tt
  | None => chat_message user_input
  end.

(** The body of the [try] in the loop of [chat]. *)
Definition chat_try : M unit :=
  print EmptyString ;;;
  user_input <- read_multiline_input "You: " ;;
  chat_dispatch user_input.

(** How one pass through the loop ends. *)
Inductive status : Type :=
| Continue
| Exit (code : Z).

(** The [except] clauses of the loop around a body [m]. *)
Definition handle (m : M unit) (st : State) : status * State :=
  match m st with
  | (Ok _, st') => (Continue, st')
  | (Raise EOFError, st') =>
      (Exit 0, set_stdout (stdout st' ++ ["Closing..." ++ nl]) st')
  | (Raise KeyboardInterrupt, st') =>
      (Continue, set_stdout (stdout st' ++ ["Interrupted!" ++ nl]) st')
  | (Raise (Exception _ d), st') =>
      (Continue, set_stdout (stdout st' ++ [("Error: " ++ d) ++ nl]) st')
  | (Raise (SystemExit c), st') => (Exit c, st')
  end.

(** One pass through [while True]. *)
Definition chat_step (st : State) : status * State := handle chat_try st.

(** The loop, for at most [fuel] passes: the exit status and the final
    state, or [None] when the passes did not reach an exit. *)
Fixpoint chat_loop (fuel : nat) (st : State) : option (Z * State) :=
  match fuel with
  | O => None
  | S fuel' =>
      match chat_step st with
      | (Exit c, st') => Some (c, st')
      | (Continue, st') => chat_loop fuel' st'
      end
  end.

(** The first two statements of [chat]. *)
Definition chat_init (st : State) : State :=
  set_history [mkTurn "system" (system_prompt default_config)]
              (set_config default_config st).

(** [chat()], run on the console input of [st]; every pass consumes a
    console event or exits, so one pass more than there are events is
    enough. *)
Definition chat (st : State) : option (Z * State) :=
  chat_loop (S (length (stdin st))) (chat_init st).

End Program.

Arguments Ok {A} a.
Arguments Raise {A} e.

(** ** A small runtime to run the program on examples

    Numbers are plain decimal literals: [int()] reads an optional minus sign
    and digits, [float()] reads digits, a point and digits, and a float is
    kept as the text that denotes it.  The dump writes the turns as JSON
    objects with two-space indentation and leaves the strings unescaped. *)

Module Plain.

Definition is_digit (c : ascii) : bool :=
  andb (Nat.leb 48 (nat_of_ascii c)) (Nat.leb (nat_of_ascii c) 57).

Fixpoint digits (s : string) (acc : Z) : option Z :=
  match s with
  | EmptyString => Some acc
  | String c r =>
      if is_digit c
      then digits r (10 * acc + Z.of_nat (nat_of_ascii c - 48))
      else None
  end.

Definition parse_int (s : string) : option Z :=
  match s with
  | EmptyString => None
  | String "-" EmptyString => None
  | String "-" r => option_map Z.opp (digits r 0)
  | _ => digits s 0
  end.

Fixpoint all_digits (s : string) : bool :=
  match s with
  | EmptyString => true
  | String c r => andb (is_digit c) (all_digits r)
  end.

Fixpoint decimal_literal (s : string) (seen : bool) : bool :=
  match s with
  | EmptyString => false
  | String "." r => andb seen (andb (all_digits r) (negb (String.eqb r EmptyString)))
  | String c r => andb (is_digit c) (decimal_literal r true)
  end.

Definition parse_float (s : string) : option string :=
  if decimal_literal s false then Some s else None.

Definition dq : string := String (ascii_of_nat 34) EmptyString.

Definition dump_turn (t : Turn) : string :=
  "  {" ++ nl ++
  "    " ++ dq ++ "role" ++ dq ++ ": " ++ dq ++ role t ++ dq ++ "," ++ nl ++
  "    " ++ dq ++ "content" ++ dq ++ ": " ++ dq ++ content t ++ dq ++ nl ++
  "  }".

Definition dump (h : list Turn) : string :=
  match h with
  | [] => "[]"
  | _ => "[" ++ nl ++ join ("," ++ nl) (map dump_turn h) ++ nl ++ "]"
  end.

Definition runtime : PyRuntime :=
  {| pyfloat := string;
     float_of_str := parse_float;
     float_error := fun s => "could not convert string to float: '" ++ s ++ "'";
     str_float := fun x => x;
     int_of_str := parse_int;
     int_error := fun s => "invalid literal for int() with base 10: '" ++ s ++ "'";
     float_0_8 := "0.8";
     json_dump := dump |}.

(** A state with nothing on the console, an empty log, a service that
    answers every request with the two fragments [Hi] and [ there], and a
    disk without faults. *)
Definition state0 : @State runtime :=
  {| history := [mkTurn "system" "You are a good Claude!"];
     config := @default_config runtime;
     stdin := [];
     stdout := [];
     log_file := [];
     clock := "2024-01-01 00:00:00";
     api_key := Some "key";
     requests := [];
     remote := fun _ _ => Stream [ContentBlockDelta "Hi"; ContentBlockDelta " there"] None;
     disk := fun _ => None;
     saves := 0 |}.

(** The same after one exchange. *)
Definition state_chat : @State runtime :=
  set_history [mkTurn "system" "You are a good Claude!";
               mkTurn "user" "Hello";
               mkTurn "assistant" ("Hi there" ++ nl)] state0.

(** A disk that fails the second write of every [/save]. *)
Definition state_disk_full : @State runtime :=
  {| history := history state_chat;
     config := config state0;
     stdin := [];
     stdout := [];
     log_file := [];
     clock := clock state0;
     api_key := api_key state0;
     requests := [];
     remote := remote state0;
     disk := fun _ => Some (WriteFails 1 "No space left on device");
     saves := 0 |}.

(** A service that cannot be reached. *)
Definition state_offline : @State runtime :=
  {| history := history state0;
     config := config state0;
     stdin := [];
     stdout := [];
     log_file := [];
     clock := clock state0;
     api_key := None;
     requests := [];
     remote := fun _ _ => CreateFails "APIConnectionError" "Connection error.";
     disk := disk state0;
     saves := 0 |}.

End Plain.

(** ** The vocabulary of the properties *)

(** The tokens of the commands with an argument; the code matches them as
    they are written. *)
Definition argument_tokens : list string := ["/sys"; "/temp"; "/max"].

(** The tokens of the other commands; the code matches them in any letter
    case. *)
Definition plain_tokens : list string :=
  ["/env"; "/save"; "/new"; "/help"; "/exit"; "/quit"; "/bye"].

(** The input matches no recognized command prefix: it begins with none of
    the argument tokens, and its lowercased text with none of the others. *)
Definition no_command_prefix (s : string) : bool :=
  forallb (fun p => negb (startswith p s)) argument_tokens
  && forallb (fun p => negb (startswith p (lower s))) plain_tokens.

(** The conditions of the [if]/[elif] chain of [process_commands], taken
    together: some branch other than the final [else] is entered. *)
Definition enters_branch (s : string) : bool :=
  startswith "/sys" s || startswith "/temp" s || startswith "/max" s
  || String.eqb (lower s) "/env" || String.eqb (lower s) "/save"
  || String.eqb (lower s) "/new"
  || (startswith "/help" (lower s) || String.eqb s EmptyString)
  || mem (lower s) ["/exit"; "/quit"; "/bye"].

(** The lowercased input begins with an exit token without being one. *)
Definition exit_with_trailing_text (s : string) : bool :=
  (startswith "/exit" (lower s) || startswith "/quit" (lower s)
   || startswith "/bye" (lower s))
  && negb (mem (lower s) ["/exit"; "/quit"; "/bye"]).

(** The text of the [content_block_delta] events of a stream, in order. *)
Fixpoint delta_texts (chunks : list Chunk) : list string :=
  match chunks with
  | [] => []
  | ContentBlockDelta t :: rest => t :: delta_texts rest
  | OtherEvent _ :: rest => delta_texts rest
  end.

(** The texts put together, as [assistant_reply] accumulates them. *)
Definition concat_texts (l : list string) : string :=
  fold_right String.append EmptyString l.

(** A [/save] whose fault [f] makes [open] or one of the three writes raise. *)
Definition save_fails (f : option save_fault) : bool :=
  match f with
  | None => false
  | Some (OpenFails _) => true
  | Some (WriteFails n _) => Nat.ltb n 3
  end.

(** The invariant of the conversation: it is not empty, its first turn has
    the role [system], and no later turn has. *)
Definition conversation_ok (h : list Turn) : Prop :=
  match h with
  | [] => False
  | t :: rest => role t = "system" /\ Forall (fun u => role u <> "system") rest
  end.

(** The lines [show_help] prints. *)
Definition help_text : list string :=
  map (fun l => (l ++ nl)%string)
      ["Available commands:";
       "/sys <new_prompt> - Change the system prompt";
       "/temp <value> - Change the temperature";
       "/max <value> - Change the max tokens";
       "/env - Show the current environment settings";
       "/new - Clear the conversation history";
       "/exit, /quit, /bye - Exit the chat";
       "/help - Show this help"].

(** The request [ask_claude] builds from a non-empty list of messages. *)
Definition request_of {RT : PyRuntime} (key : option string)
    (messages : list Turn) (cfg : ClaudeConfig) : Request :=
  mkRequest key (model cfg) (hd EmptyString (map content messages))
            (map (fun msg => mkTurn (api_role msg) (content msg)) (tl messages))
            (max_tokens cfg) (temperature cfg) true.

(** Unfold the field updates and reduce the projections applied to them. *)
Ltac fields :=
  unfold set_history, set_config, set_stdin, set_stdout, set_log_file,
    set_requests, set_saves in *;
  cbn [history config stdin stdout log_file clock api_key requests remote
       disk saves fst snd] in *.

(** Unfold the primitives of a branch of [process_commands]. *)
Ltac run_branch :=
  unfold set_system_content, history_0, set_temperature, set_max_tokens,
    open_log, file_write, handled, show_help, sys_exit, IndexError, print,
    print_end, bind, get, modify, ret, raise;
  fields; cbv beta iota; fields.

(** Reduce the projections of updated states in the goal. *)
Ltac project :=
  cbn [set_history set_config set_stdin set_stdout set_log_file set_requests
       set_saves history config stdin stdout log_file clock api_key requests
       remote disk saves fst snd].

(** The log got nothing new. *)
Ltac no_log_added :=
  exists []; split; [now rewrite app_nil_r | reflexivity].

(** [run_branch] in a hypothesis. *)
Ltac run_in H :=
  unfold set_system_content, history_0, set_temperature, set_max_tokens,
    open_log, file_write, handled, sys_exit, IndexError, print, print_end,
    bind, get, modify, ret, raise in H;
  fields; cbv beta iota in H; fields.

(** Put the computed outcome back and settle the conjuncts about fields. *)
Ltac frame_done Hh :=
  rewrite ?Hh in *; fields; rewrite ?Hh in *; fields;
  match goal with Hr : _ = _ |- context [snd ?r] => subst r end;
  fields; rewrite ?Hh; repeat split;
  try discriminate; try (cbn [length]; lia); try no_log_added.

(** * Properties *)

(** ** Facts about the string operations *)

Lemma append_assoc (a b c : string) : ((a ++ b) ++ c = a ++ (b ++ c))%string.
Proof. induction a as [|x a IH]; simpl; [reflexivity | now rewrite IH]. Qed.

Lemma append_empty_r (a : string) : (a ++ EmptyString)%string = a.
Proof. induction a as [|x a IH]; simpl; [reflexivity | now rewrite IH]. Qed.

Lemma startswith_lower (p s : string) :
  startswith p s = true -> startswith (lower p) (lower s) = true.
Proof.
  revert s; induction p as [|a p IH]; intros [|b s] H; simpl in *;
    try reflexivity; try discriminate.
  destruct (Ascii.eqb_spec a b) as [->|]; [|discriminate].
  rewrite Ascii.eqb_refl. now apply IH.
Qed.

Lemma startswith_split (p s : string) :
  startswith p s = true -> exists r, s = (p ++ r)%string.
Proof.
  revert s; induction p as [|a p IH]; intros s H; simpl in *.
  - now exists s.
  - destruct s as [|b s]; [discriminate|].
    destruct (Ascii.eqb_spec a b) as [->|]; [|discriminate].
    destruct (IH _ H) as [r ->]. now exists r.
Qed.

Lemma no_command_prefix_falls_through (s : string) :
  s <> EmptyString -> no_command_prefix s = true -> enters_branch s = false.
Proof.
  intros Hne H. unfold no_command_prefix in H.
  apply andb_true_iff in H. destruct H as [Ha Hl].
  assert (pre : forall p, In p argument_tokens -> startswith p s = false).
  { intros p Hin. apply negb_true_iff. revert p Hin. now apply forallb_forall. }
  assert (Hp : forall p, In p plain_tokens -> startswith p (lower s) = false).
  { intros p Hin. apply negb_true_iff. revert p Hin. now apply forallb_forall. }
  assert (eq : forall p, In p plain_tokens -> startswith p p = true ->
                         String.eqb (lower s) p = false).
  { intros p Hin Hpp. destruct (String.eqb_spec (lower s) p) as [E|]; [|reflexivity].
    specialize (Hp p Hin). rewrite E in Hp. congruence. }
  unfold enters_branch, mem; cbn [existsb].
  rewrite (pre "/sys"), (pre "/temp"), (pre "/max") by (simpl; tauto).
  rewrite (eq "/env"), (eq "/save"), (eq "/new"), (eq "/exit"), (eq "/quit"),
    (eq "/bye") by (try reflexivity; simpl; tauto).
  rewrite (Hp "/help") by (simpl; tauto).
  apply String.eqb_neq in Hne. rewrite Hne. reflexivity.
Qed.

Lemma exit_with_trailing_text_falls_through (s : string) :
  exit_with_trailing_text s = true -> enters_branch s = false.
Proof.
  unfold exit_with_trailing_text. rewrite andb_true_iff, negb_true_iff.
  intros [Hpre Hmem].
  assert (pre : forall p, startswith p s = true ->
                          startswith (lower p) (lower s) = true)
    by (intros; now apply startswith_lower).
  assert (Hne : String.eqb s EmptyString = false).
  { apply String.eqb_neq. intros ->. simpl in Hpre. discriminate. }
  unfold enters_branch. rewrite Hmem, Hne.
  repeat rewrite orb_true_iff in Hpre.
  destruct (startswith "/sys" s) eqn:E1;
    [apply pre in E1; simpl lower in E1|];
  (destruct (startswith "/temp" s) eqn:E2;
    [apply pre in E2; simpl lower in E2|]);
  (destruct (startswith "/max" s) eqn:E3;
    [apply pre in E3; simpl lower in E3|]);
  destruct Hpre as [[H|H]|H]; apply startswith_split in H; destruct H as [r Hr];
    rewrite Hr in *; simpl in *; try discriminate; reflexivity.
Qed.

Lemma startswith_false_by_lower (p s : string) :
  startswith (lower p) (lower s) = false -> startswith p s = false.
Proof.
  intros H. destruct (startswith p s) eqn:E; [|reflexivity].
  apply startswith_lower in E. congruence.
Qed.

(** ** The program, component by component *)

Section Properties.

Context {RT : PyRuntime}.

Lemma set_stdout_same (st : State) : set_stdout (stdout st) st = st.
Proof. now destruct st. Qed.

(** *** [show_help] *)

Lemma print_then {A} (l : string) (k : M A) (st : State) :
  bind (print l) (fun _ => k) st = k (set_stdout (stdout st ++ [(l ++ nl)%string]) st).
Proof. reflexivity. Qed.

Lemma set_stdout_twice (o1 o2 : list string) (st : State) :
  set_stdout o2 (set_stdout o1 st) = set_stdout o2 st.
Proof. reflexivity. Qed.

Lemma stdout_set_stdout (o : list string) (st : State) :
  stdout (set_stdout o st) = o.
Proof. reflexivity. Qed.

Lemma show_help_spec (st : State) :
  show_help st = (Ok tt, set_stdout (stdout st ++ help_text) st).
Proof.
  unfold show_help.
  repeat (rewrite print_then, ?stdout_set_stdout, ?set_stdout_twice,
           <- ?app_assoc).
  unfold print, print_end, modify.
  rewrite stdout_set_stdout, set_stdout_twice, <- app_assoc. reflexivity.
Qed.

(** *** [process_commands] *)

Lemma process_commands_else (s : string) (st : State) :
  enters_branch s = false ->
  process_commands s st = (Ok (None, history st, config st), st).
Proof.
  unfold enters_branch. repeat rewrite orb_false_iff.
  intros [[[[[[[H1 H2] H3] H4] H5] H6] [H7 H8]] H9].
  unfold process_commands. rewrite H1, H2, H3, H4, H5, H6, H7, H8, H9.
  reflexivity.
Qed.

Lemma ask_claude_spec (messages : list Turn) (cfg : ClaudeConfig) (st : State) :
  messages <> [] ->
  ask_claude messages cfg st =
  (match remote st (length (requests st))
           (request_of (api_key st) messages cfg) with
   | CreateFails cls d => Raise (Exception cls d)
   | Stream chunks failure => Ok (chunks, failure)
   end,
   set_requests (requests st ++ [request_of (api_key st) messages cfg]) st).
Proof.
  intros Hne. destruct messages as [|m0 rest]; [congruence|].
  unfold ask_claude, messages_create, bind, get, modify, request_of; simpl.
  destruct (remote st _ _); reflexivity.
Qed.

Lemma consume_spec (chunks : list Chunk) (failure : option (string * string)) :
  forall (acc : string) (st : State),
    consume chunks failure acc st =
    (match failure with
     | None => Ok (acc ++ concat_texts (delta_texts chunks))%string
     | Some (cls, d) => Raise (Exception cls d)
     end,
     set_stdout (stdout st ++ delta_texts chunks) st).
Proof.
  induction chunks as [|c chunks IH]; intros acc st.
  - simpl. rewrite app_nil_r, set_stdout_same, append_empty_r.
    destruct failure as [[cls d]|]; reflexivity.
  - destruct c as [t|ty]; simpl.
    + unfold bind, print_end, modify. rewrite IH. simpl.
      rewrite append_empty_r, append_assoc, <- app_assoc. reflexivity.
    + apply IH.
Qed.

(** What [chat_message] does, by the answer of the service. *)
Lemma chat_message_spec (s : string) (st : State) :
  let h1 := (history st ++ [mkTurn "user" s])%list in
  let req := request_of (api_key st) h1 (config st) in
  let st2 := set_requests (requests st ++ [req]) (set_history h1 st) in
  chat_message s st =
  match remote st (length (requests st)) req with
  | CreateFails cls d => (Raise (Exception cls d), st2)
  | Stream chunks (Some (cls, d)) =>
      (Raise (Exception cls d),
       set_stdout (stdout st ++ nl :: delta_texts chunks) st2)
  | Stream chunks None =>
      (Ok tt,
       set_stdout (stdout st ++ nl :: delta_texts chunks ++ [(nl ++ nl)%string])
         (set_history
            (h1 ++ [mkTurn "assistant" (concat_texts (delta_texts chunks) ++ nl)])
            st2))
  end.
Proof.
  intros h1 req st2.
  unfold chat_message, history_append, bind at 1, modify at 1.
  unfold bind at 1, get at 1. unfold bind at 1.
  rewrite ask_claude_spec by (simpl; destruct (history st); discriminate).
  simpl. fold h1. fold req.
  destruct (remote st (length (requests st)) req) as [cls d|chunks failure].
  - reflexivity.
  - unfold bind at 1, print at 1, print_end at 1, modify at 1.
    unfold bind at 1. rewrite consume_spec.
    destruct failure as [[cls d]|]; simpl.
    + unfold st2, set_stdout, set_requests, set_history; simpl.
      rewrite <- app_assoc. reflexivity.
    + unfold bind, print, print_end, modify, st2, set_stdout, set_requests,
        set_history; simpl.
      repeat rewrite <- app_assoc. reflexivity.
Qed.

Lemma chat_dispatch_message (s : string) (st : State) :
  enters_branch s = false -> chat_dispatch s st = chat_message s st.
Proof.
  intros H. unfold chat_dispatch, bind at 1.
  rewrite (process_commands_else s st H).
  destruct st; reflexivity.
Qed.

Lemma handle_chat_dispatch_message (s : string) (st : State) :
  enters_branch s = false ->
  handle (chat_dispatch s) st = handle (chat_message s) st.
Proof.
  intros H. unfold handle. now rewrite (chat_dispatch_message s st H).
Qed.

(** One pass of the loop over [chat_message]: it never ends the process,
    the user turn is appended, exactly one request goes out, and an
    assistant turn follows the user turn or nothing does. *)
Lemma handle_chat_message (s : string) (st : State) :
  let st' := snd (handle (chat_message s) st) in
  fst (handle (chat_message s) st) = Continue /\
  config st' = config st /\
  requests st' =
    (requests st ++
     [request_of (api_key st) (history st ++ [mkTurn "user" s]) (config st)])%list /\
  exists tail,
    history st' = (history st ++ mkTurn "user" s :: tail)%list /\
    (tail = [] \/ exists reply, tail = [mkTurn "assistant" (reply ++ nl)]).
Proof.
  unfold handle. rewrite chat_message_spec.
  destruct (remote st _ _) as [cls d|chunks [[cls d]|]]; simpl;
    repeat split; try (exists []; split; [reflexivity | now left]).
  eexists. split; [rewrite <- app_assoc; reflexivity|].
  right. eexists. reflexivity.
Qed.

(** *** [read_multiline_input] *)

Lemma read_more_lines (ls : list string) :
  forall (acc : list string) (rest : list console_event),
    read_more (map Line ls ++ Eof :: rest) acc = (Ok (acc ++ ls)%list, rest) /\
    read_more (map Line ls) acc = (Ok (acc ++ ls)%list, []).
Proof.
  induction ls as [|l ls IH]; intros acc rest; simpl.
  - rewrite app_nil_r. now split.
  - destruct (IH (acc ++ [l])%list rest) as [H1 H2].
    rewrite H1, H2, <- app_assoc. now split.
Qed.

Lemma read_single_line (prompt l : string) (rest : list console_event)
    (st : State) :
  startswith backslash l = false ->
  read_multiline_input prompt (set_stdin (Line l :: rest) st) =
  (Ok l, set_stdin rest (set_stdout (stdout st ++ [prompt]) st)).
Proof.
  intros H. unfold read_multiline_input, bind, print_end, modify,
    except_EOFError, input.
  fields. rewrite H. cbn [negb].
  rewrite append_empty_r. reflexivity.
Qed.

Lemma read_continued_lines (prompt l : string) (ls : list string)
    (tail : list console_event) (st : State) :
  startswith backslash l = true ->
  tail = [] \/ (exists rest, tail = Eof :: rest) ->
  read_multiline_input prompt (set_stdin (Line l :: map Line ls ++ tail) st) =
  (Ok (join nl (l :: ls)),
   set_stdout (stdout st ++ [prompt; (nl ++ "<end of input>" ++ nl ++ nl)%string])
              (set_stdin (tl tail) st)).
Proof.
  intros H Htail. unfold read_multiline_input, bind at 1, print_end, modify.
  unfold bind at 1, except_EOFError, input. fields.
  rewrite H. cbn [negb]. fields.
  assert (Hm : read_more (map Line ls ++ tail) [l] = (Ok (l :: ls), tl tail)).
  { destruct Htail as [->|[rest ->]].
    - rewrite app_nil_r. apply (read_more_lines ls [l] []).
    - apply (read_more_lines ls [l] rest). }
  rewrite Hm. unfold bind, print, print_end, modify, ret. fields.
  rewrite append_empty_r, <- app_assoc. reflexivity.
Qed.

(** *** The loop *)

(** A pass that reads a one-line input goes on with [chat_dispatch]. *)
Lemma chat_step_line (l : string) (rest : list console_event) (st : State) :
  startswith backslash l = false ->
  chat_step (set_stdin (Line l :: rest) st) =
  handle (chat_dispatch l)
         (set_stdin rest (set_stdout (stdout st ++ [nl; "You: "]) st)).
Proof.
  intros H. unfold chat_step, chat_try, handle, bind at 1, print, print_end,
    modify.
  unfold bind at 1.
  change (set_stdout _ (set_stdin (Line l :: rest) st))
    with (set_stdin (Line l :: rest) (set_stdout (stdout st ++ [nl]) st)).
  rewrite (read_single_line _ _ _ _ H).
  unfold set_stdin, set_stdout; simpl. rewrite <- app_assoc. reflexivity.
Qed.

Lemma slash_not_backslash (s : string) :
  startswith "/" (lower s) = true -> startswith backslash s = false.
Proof.
  destruct s as [|c s]; [reflexivity|].
  unfold backslash. cbn [lower startswith]. intros H.
  destruct (Ascii.eqb (ascii_of_nat 92) c) eqn:E; [|reflexivity].
  apply Ascii.eqb_eq in E. subst c. vm_compute in H. discriminate.
Qed.

(** *** The branches of [process_commands] *)

Lemma process_commands_new (s : string) (st : State) (t : Turn)
    (rest : list Turn) :
  lower s = "/new" -> history st = t :: rest ->
  process_commands s st =
  (Ok (Some true, [t], config st),
   set_stdout (stdout st ++ [("Conversation history cleared." ++ nl)%string]) st).
Proof.
  intros H Hh. unfold process_commands.
  rewrite (startswith_false_by_lower "/sys" s),
    (startswith_false_by_lower "/temp" s),
    (startswith_false_by_lower "/max" s) by (rewrite H; reflexivity).
  rewrite H. cbn [String.eqb Ascii.eqb Bool.eqb].
  unfold history_0, bind, get, handled, print, print_end, modify, ret.
  rewrite Hh. reflexivity.
Qed.

Lemma process_commands_save (s : string) (st : State) (t : Turn)
    (rest : list Turn) :
  lower s = "/save" -> history st = t :: rest ->
  save_fails (disk st (saves st)) = false ->
  process_commands s st =
  (Ok (Some true, [t], config st),
   set_stdout (stdout st ++ [("Conversation appended to log" ++ nl)%string])
     (set_log_file
        (log_file st ++
         [(nl ++ clock st ++ nl)%string; json_dump (t :: rest); nl])
        (set_saves (S (saves st)) st))).
Proof.
  intros H Hh Hf. unfold process_commands.
  rewrite (startswith_false_by_lower "/sys" s),
    (startswith_false_by_lower "/temp" s),
    (startswith_false_by_lower "/max" s) by (rewrite H; reflexivity).
  rewrite H. cbn [String.eqb Ascii.eqb Bool.eqb].
  unfold open_log, file_write, history_0, bind, get, handled, print,
    print_end, modify, ret, raise.
  fields. rewrite Hh.
  destruct (disk st (saves st)) as [[d|n d]|]; cbn [save_fails] in Hf;
    try discriminate.
  - destruct n as [|[|[|n]]]; try discriminate.
    cbn [Nat.eqb]. fields. repeat rewrite <- app_assoc. reflexivity.
  - fields. repeat rewrite <- app_assoc. reflexivity.
Qed.

Lemma process_commands_save_fault (s : string) (st : State) :
  lower s = "/save" -> save_fails (disk st (saves st)) = true ->
  exists d k,
    k < 3 /\
    process_commands s st =
    (Raise (Exception "OSError" d),
     set_log_file
       (log_file st ++
        firstn k [(nl ++ clock st ++ nl)%string; json_dump (history st); nl])
       (set_saves (S (saves st)) st)).
Proof.
  intros H Hf. unfold process_commands.
  rewrite (startswith_false_by_lower "/sys" s),
    (startswith_false_by_lower "/temp" s),
    (startswith_false_by_lower "/max" s) by (rewrite H; reflexivity).
  rewrite H. cbn [String.eqb Ascii.eqb Bool.eqb].
  unfold open_log, file_write, history_0, bind, get, handled, print,
    print_end, modify, ret, raise.
  fields.
  destruct (disk st (saves st)) as [[d|n d]|]; cbn [save_fails] in Hf;
    try discriminate.
  - exists d, 0. split; [lia|]. cbn [firstn]. rewrite app_nil_r. reflexivity.
  - destruct n as [|[|[|n]]]; try discriminate; cbn [Nat.eqb]; fields;
      exists d.
    + exists 0. split; [lia|]. cbn [firstn]. rewrite app_nil_r. reflexivity.
    + exists 1. split; [lia|]. reflexivity.
    + exists 2. split; [lia|]. cbn [firstn]. rewrite <- app_assoc. reflexivity.
Qed.

Lemma process_commands_temp_error (s : string) (st : State) :
  startswith "/temp" s = true ->
  float_of_str (strip (drop 5 s)) = None ->
  process_commands s st =
  (Raise (Exception "ValueError" (float_error (strip (drop 5 s)))), st).
Proof.
  intros H Hp. unfold process_commands.
  assert (H1 : startswith "/sys" s = false).
  { destruct (startswith_split _ _ H) as [r ->]. reflexivity. }
  rewrite H1, H, Hp. reflexivity.
Qed.

Lemma process_commands_max_error (s : string) (st : State) :
  startswith "/max" s = true ->
  int_of_str (strip (drop 4 s)) = None ->
  process_commands s st =
  (Raise (Exception "ValueError" (int_error (strip (drop 4 s)))), st).
Proof.
  intros H Hp. unfold process_commands.
  assert (H1 : startswith "/sys" s = false /\ startswith "/temp" s = false).
  { destruct (startswith_split _ _ H) as [r ->]. now split. }
  destruct H1 as [H1 H2]. rewrite H1, H2, H, Hp. reflexivity.
Qed.

(** *** The invariant of the conversation *)

Lemma conversation_ok_append (h : list Turn) (t : Turn) :
  conversation_ok h -> role t <> "system" -> conversation_ok (h ++ [t]).
Proof.
  destruct h as [|t0 rest]; simpl; [tauto|].
  intros [H0 Hr] Ht. split; [assumption|].
  apply Forall_app. split; [assumption | now constructor].
Qed.

Lemma process_commands_ok (s : string) (st : State) :
  conversation_ok (history st) ->
  match process_commands s st with
  | (Ok (_, h', _), st') => conversation_ok h' /\ conversation_ok (history st')
  | (Raise _, st') => conversation_ok (history st')
  end.
Proof.
  intros Hok. destruct (history st) as [|t rest] eqn:Hh; [contradiction|].
  destruct Hok as [Ht Hrest].
  assert (Hone : conversation_ok [t]) by (split; [assumption | constructor]).
  assert (Hall : conversation_ok (t :: rest)) by (split; assumption).
  unfold process_commands.
  destruct (startswith "/sys" s).
  { run_branch. rewrite Hh. fields. split; split; assumption. }
  destruct (startswith "/temp" s).
  { destruct (float_of_str _); run_branch; rewrite Hh; auto. }
  destruct (startswith "/max" s).
  { destruct (int_of_str _); run_branch; rewrite Hh; auto. }
  destruct (String.eqb (lower s) "/env").
  { run_branch. rewrite Hh. fields. rewrite Hh. auto. }
  destruct (String.eqb (lower s) "/save").
  { run_branch.
    destruct (disk st (saves st)) as [[d|n d]|]; fields; try rewrite Hh;
      auto.
    destruct n as [|[|[|n]]]; cbn [Nat.eqb]; cbv beta iota; fields; auto. }
  destruct (String.eqb (lower s) "/new").
  { run_branch. rewrite Hh. fields. rewrite Hh. auto. }
  destruct (startswith "/help" (lower s) || String.eqb s EmptyString).
  { unfold bind at 1. rewrite show_help_spec. run_branch. rewrite Hh. auto. }
  destruct (mem (lower s) ["/exit"; "/quit"; "/bye"]).
  { run_branch. rewrite Hh. auto. }
  run_branch. rewrite Hh. auto.
Qed.

(** [process_commands] reads nothing from the console. *)
Lemma process_commands_stdin (s : string) (st : State) :
  stdin (snd (process_commands s st)) = stdin st.
Proof.
  unfold process_commands.
  destruct (startswith "/sys" s).
  { run_branch. destruct (history st); reflexivity. }
  destruct (startswith "/temp" s).
  { destruct (float_of_str _); run_branch; reflexivity. }
  destruct (startswith "/max" s).
  { destruct (int_of_str _); run_branch; reflexivity. }
  destruct (String.eqb (lower s) "/env").
  { run_branch. destruct (history st); reflexivity. }
  destruct (String.eqb (lower s) "/save").
  { run_branch.
    destruct (disk st (saves st)) as [[d|n d]|]; fields;
      try (destruct (history st); reflexivity).
    destruct n as [|[|[|n]]]; cbn [Nat.eqb]; cbv beta iota; fields;
      try reflexivity; destruct (history st); reflexivity. }
  destruct (String.eqb (lower s) "/new").
  { run_branch. destruct (history st); reflexivity. }
  destruct (startswith "/help" (lower s) || String.eqb s EmptyString).
  { unfold bind at 1. rewrite show_help_spec. reflexivity. }
  destruct (mem (lower s) ["/exit"; "/quit"; "/bye"]).
  { run_branch. reflexivity. }
  reflexivity.
Qed.

Lemma chat_message_ok (s : string) (st : State) :
  conversation_ok (history st) ->
  conversation_ok (history (snd (handle (chat_message s) st))).
Proof.
  intros Hok.
  destruct (handle_chat_message s st) as (_ & _ & _ & tail & Hh & Htail).
  rewrite Hh.
  assert (Hu : conversation_ok (history st ++ [mkTurn "user" s]))
    by (apply conversation_ok_append; [assumption | discriminate]).
  destruct Htail as [->|[reply ->]]; [assumption|].
  change (history st ++ [mkTurn "user" s; mkTurn "assistant" (reply ++ nl)])%list
    with (history st ++ [mkTurn "user" s] ++ [mkTurn "assistant" (reply ++ nl)])%list.
  rewrite app_assoc. apply conversation_ok_append; [assumption | discriminate].
Qed.

Lemma chat_message_stdin (s : string) (st : State) :
  stdin (snd (handle (chat_message s) st)) = stdin st.
Proof.
  unfold handle. rewrite chat_message_spec.
  destruct (remote st _ _) as [cls d|chunks [[cls d]|]]; reflexivity.
Qed.

(** One pass from the point where the logical input was read keeps the
    invariant. *)
Lemma chat_dispatch_ok (s : string) (st : State) :
  conversation_ok (history st) ->
  conversation_ok (history (snd (handle (chat_dispatch s) st))).
Proof.
  intros Hok. pose proof (process_commands_ok s st Hok) as Hp.
  unfold handle, chat_dispatch, bind at 1.
  destruct (process_commands s st) as [[[[r h'] cfg']|e] st'].
  - destruct Hp as (Hh' & _). unfold bind at 1, modify at 1.
    unfold bind at 1, modify at 1.
    destruct r as [b|].
    + unfold ret. fields. assumption.
    + apply (chat_message_ok s (set_config cfg' (set_history h' st'))).
      exact Hh'.
  - destruct e; fields; assumption.
Qed.

(** It takes nothing from the console. *)
Lemma chat_dispatch_stdin (s : string) (st : State) :
  stdin (snd (handle (chat_dispatch s) st)) = stdin st.
Proof.
  pose proof (process_commands_stdin s st) as Hin.
  unfold handle, chat_dispatch, bind at 1.
  destruct (process_commands s st) as [[[[r h'] cfg']|e] st']; simpl in Hin.
  - unfold bind at 1, modify at 1. unfold bind at 1, modify at 1.
    rewrite <- Hin. destruct r as [b|].
    + reflexivity.
    + apply (chat_message_stdin s (set_config cfg' (set_history h' st'))).
  - destruct e; fields; assumption.
Qed.

Lemma read_more_shorter (evs : list console_event) :
  forall acc, length (snd (read_more evs acc)) <= length evs.
Proof.
  induction evs as [|[l| |] evs IH]; intros acc; simpl; try lia.
  specialize (IH (acc ++ [l])%list). lia.
Qed.

(** [read_multiline_input] leaves the conversation alone, and takes at least
    one event from the console unless it ends the process. *)
Lemma read_multiline_input_frame (prompt : string) (st : State) :
  match read_multiline_input prompt st with
  | (Raise (SystemExit _), st') => history st' = history st
  | (_, st') =>
      history st' = history st /\ length (stdin st') < length (stdin st)
  end.
Proof.
  unfold read_multiline_input, bind at 1, print_end, modify.
  unfold bind at 1, except_EOFError, input, sys_exit, raise. fields.
  destruct (stdin st) as [|[l| |] rest]; fields; try (split; [reflexivity | cbn [Datatypes.length]; lia]);
    try reflexivity.
  destruct (startswith backslash l); cbn [negb]; fields.
  - pose proof (read_more_shorter rest [l]) as Hlen.
    destruct (read_more rest [l]) as [[lines|e] rest'];
      unfold bind, print, print_end, modify, ret; fields; simpl in Hlen.
    + split; [reflexivity | cbn [Datatypes.length]; lia].
    + destruct e; try (split; [reflexivity | cbn [Datatypes.length]; lia]). reflexivity.
  - unfold ret. fields. split; [reflexivity | cbn [Datatypes.length]; lia].
Qed.

(** A pass of the loop is the read, then [chat_dispatch] on what was read
    or the [except] clauses on what the read raised. *)
Lemma chat_step_cases (st : State) :
  chat_step st =
  match read_multiline_input "You: " (set_stdout (stdout st ++ [nl]) st) with
  | (Ok s, st1) => handle (chat_dispatch s) st1
  | (Raise e, st1) => handle (raise e) st1
  end.
Proof.
  unfold chat_step, chat_try, handle, bind at 1, print, print_end, modify.
  unfold bind at 1, raise.
  change (EmptyString ++ nl)%string with nl.
  destruct (read_multiline_input "You: " _) as [[s|e] st1]; reflexivity.
Qed.

Lemma chat_step_ok (st : State) :
  conversation_ok (history st) ->
  conversation_ok (history (snd (chat_step st))).
Proof.
  intros Hok. rewrite chat_step_cases.
  pose proof (read_multiline_input_frame "You: "
                (set_stdout (stdout st ++ [nl]) st)) as Hr.
  destruct (read_multiline_input _ _) as [[s|e] st1].
  - destruct Hr as [Hh _]. apply chat_dispatch_ok. now rewrite Hh.
  - unfold handle, raise.
    destruct e; fields;
      match type of Hr with
      | _ /\ _ => destruct Hr as [Hr _]
      | _ => idtac
      end; now rewrite Hr.
Qed.

(** A pass that does not end the process takes an event from the console. *)
Lemma chat_step_consumes (st st' : State) :
  chat_step st = (Continue, st') -> length (stdin st') < length (stdin st).
Proof.
  rewrite chat_step_cases.
  pose proof (read_multiline_input_frame "You: "
                (set_stdout (stdout st ++ [nl]) st)) as Hr.
  destruct (read_multiline_input _ _) as [[s|e] st1].
  - destruct Hr as [_ Hlen]. intros H.
    pose proof (chat_dispatch_stdin s st1) as Hd. rewrite H in Hd.
    simpl in Hd. rewrite Hd. exact Hlen.
  - unfold handle, raise. destruct e; intros H; try discriminate;
      destruct Hr as [_ Hlen]; injection H as <-; exact Hlen.
Qed.

(** The loop ends when it is given more passes than there are events on
    the console. *)
Lemma chat_loop_total (fuel : nat) :
  forall st, length (stdin st) < fuel ->
             exists c st', chat_loop fuel st = Some (c, st').
Proof.
  induction fuel as [|fuel IH]; intros st Hlen; [lia|].
  simpl. destruct (chat_step st) as [[|c] st1] eqn:E.
  - apply IH. apply chat_step_consumes in E. lia.
  - now exists c, st1.
Qed.

Lemma chat_loop_ok (fuel : nat) :
  forall st c st',
    conversation_ok (history st) -> chat_loop fuel st = Some (c, st') ->
    conversation_ok (history st').
Proof.
  induction fuel as [|fuel IH]; intros st c st' Hok H; [discriminate|].
  simpl in H. pose proof (chat_step_ok st Hok) as Hs.
  destruct (chat_step st) as [[|c1] st1]; simpl in Hs.
  - now apply (IH st1 c st').
  - now injection H as <- <-.
Qed.

(** How [chat_dispatch] goes on after [process_commands]. *)
Lemma chat_dispatch_handled (s : string) (st st' : State) (b : bool)
    (h' : list Turn) (cfg' : ClaudeConfig) :
  process_commands s st = (Ok (Some b, h', cfg'), st') ->
  handle (chat_dispatch s) st = (Continue, set_config cfg' (set_history h' st')).
Proof.
  intros H. unfold handle, chat_dispatch, bind at 1. rewrite H. reflexivity.
Qed.

Lemma chat_dispatch_error (s : string) (st st' : State) (cls d : string) :
  process_commands s st = (Raise (Exception cls d), st') ->
  handle (chat_dispatch s) st =
  (Continue, set_stdout (stdout st' ++ [(("Error: " ++ d) ++ nl)%string]) st').
Proof.
  intros H. unfold handle, chat_dispatch, bind at 1. rewrite H. reflexivity.
Qed.

Lemma request_of_last (key : option string) (h : list Turn) (s : string)
    (cfg : ClaudeConfig) :
  h <> [] ->
  exists msgs,
    req_messages (request_of key (h ++ [mkTurn "user" s]) cfg) =
    (msgs ++ [mkTurn "user" s])%list.
Proof.
  intros Hne. destruct h as [|t rest]; [congruence|].
  unfold request_of. cbn [req_messages app tl]. rewrite map_app.
  eexists. reflexivity.
Qed.

(** [chat] ends, whatever is on the console. *)
Lemma chat_terminates (st : State) : exists c st', chat st = Some (c, st').
Proof.
  unfold chat. apply chat_loop_total.
  change (stdin (chat_init st)) with (stdin st). lia.
Qed.

(** ** The claims of the specification *)

(** C1, as amended: for every non-empty input that matches no recognized
    command prefix ([/sys], [/temp], [/max] as written, the other tokens in
    any letter case), [process_commands] returns the not-a-command
    indicator with the conversation, the configuration and the rest of the
    state untouched, and the loop then appends a user turn whose content is
    exactly the input (followed by the assistant turn, or by nothing when
    the request fails).  The empty input is left out: it is handled as
    [/help]. *)
Theorem C1_non_command_input (s : string) (st : State) :
  s <> EmptyString -> no_command_prefix s = true ->
  process_commands s st = (Ok (None, history st, config st), st) /\
  fst (handle (chat_dispatch s) st) = Continue /\
  exists tail,
    history (snd (handle (chat_dispatch s) st)) =
      (history st ++ mkTurn "user" s :: tail)%list /\
    (tail = [] \/ exists reply, tail = [mkTurn "assistant" (reply ++ nl)]).
Proof.
  intros Hne Hpre.
  pose proof (no_command_prefix_falls_through s Hne Hpre) as Helse.
  split; [now apply process_commands_else|].
  rewrite (handle_chat_dispatch_message s st Helse).
  destruct (handle_chat_message s st) as (Hc & _ & _ & Htail).
  split; assumption.
Qed.

(** C2: right after a handled [/new], and right after a [/save] whose file
    writes complete, the conversation returned by [process_commands], which
    the loop goes on with, is the one-element list of the previous system
    turn, content unchanged. *)
Theorem C2_new_and_save_reset (s : string) (st : State) (t : Turn)
    (rest : list Turn) :
  history st = t :: rest ->
  (lower s = "/new" \/
   (lower s = "/save" /\ save_fails (disk st (saves st)) = false)) ->
  fst (process_commands s st) = Ok (Some true, [t], config st) /\
  fst (handle (chat_dispatch s) st) = Continue /\
  history (snd (handle (chat_dispatch s) st)) = [t].
Proof.
  intros Hh [Hnew|[Hsave Hdisk]].
  - pose proof (process_commands_new s st t rest Hnew Hh) as Hp.
    rewrite (chat_dispatch_handled _ _ _ _ _ _ Hp), Hp. now repeat split.
  - pose proof (process_commands_save s st t rest Hsave Hh Hdisk) as Hp.
    rewrite (chat_dispatch_handled _ _ _ _ _ _ Hp), Hp. now repeat split.
Qed.

(** C3: the conversation the session starts with is non-empty with the
    system turn first and no other system turn, and every step keeps it so:
    [process_commands] (in the list it returns and in the list object it
    was given, whether it returns or raises), the appends of the user and
    the assistant turn in [chat_message], a whole pass of the loop, and so
    any number of passes. *)
Theorem C3_conversation_invariant (st : State) :
  conversation_ok (history st) ->
  conversation_ok (history (chat_init st)) /\
  (forall s,
     match process_commands s st with
     | (Ok (_, h', _), st') => conversation_ok h' /\ conversation_ok (history st')
     | (Raise _, st') => conversation_ok (history st')
     end) /\
  (forall s, conversation_ok (history (snd (handle (chat_message s) st)))) /\
  conversation_ok (history (snd (chat_step st))) /\
  (forall fuel c st',
     chat_loop fuel st = Some (c, st') -> conversation_ok (history st')).
Proof.
  intros Hok. repeat split.
  - constructor.
  - intros s. now apply process_commands_ok.
  - intros s. now apply chat_message_ok.
  - now apply chat_step_ok.
  - intros fuel c st' H. now apply (chat_loop_ok fuel st c st').
Qed.

(** C4: a [/temp] (a [/max]) command whose argument [float()] ([int()])
    rejects makes [process_commands] raise the [ValueError] with the state
    untouched; the loop's generic handler prints [Error: ] and the
    description and goes on, so the temperature (the token limit) keeps its
    value. *)
Theorem C4_parse_error_reported (s : string) (st : State) :
  (startswith "/temp" s = true /\ float_of_str (strip (drop 5 s)) = None) \/
  (startswith "/max" s = true /\ int_of_str (strip (drop 4 s)) = None) ->
  exists descr,
    process_commands s st = (Raise (Exception "ValueError" descr), st) /\
    handle (chat_dispatch s) st =
      (Continue,
       set_stdout (stdout st ++ [(("Error: " ++ descr) ++ nl)%string]) st) /\
    temperature (config (snd (handle (chat_dispatch s) st))) =
      temperature (config st) /\
    max_tokens (config (snd (handle (chat_dispatch s) st))) =
      max_tokens (config st).
Proof.
  intros [[H Hp]|[H Hp]].
  - pose proof (process_commands_temp_error s st H Hp) as Hr.
    eexists. split; [exact Hr|].
    rewrite (chat_dispatch_error _ _ _ _ _ Hr). now repeat split.
  - pose proof (process_commands_max_error s st H Hp) as Hr.
    eexists. split; [exact Hr|].
    rewrite (chat_dispatch_error _ _ _ _ _ Hr). now repeat split.
Qed.

(** C5: on [/save] the log is written before the conversation is reset.
    When [open] or a write raises, [process_commands] raises with at most
    the first writes done, the conversation is not reset, and the loop's
    generic handler prints the error and goes on.  When nothing raises, what
    was dumped is the whole conversation as it was, and only then is the
    conversation cut down to the system turn. *)
Theorem C5_save_appends_before_reset (s : string) (st : State) :
  lower s = "/save" ->
  (save_fails (disk st (saves st)) = true ->
   exists d k,
     k < 3 /\
     process_commands s st =
       (Raise (Exception "OSError" d),
        set_log_file
          (log_file st ++
           firstn k [(nl ++ clock st ++ nl)%string; json_dump (history st); nl])
          (set_saves (S (saves st)) st)) /\
     fst (handle (chat_dispatch s) st) = Continue /\
     history (snd (handle (chat_dispatch s) st)) = history st /\
     stdout (snd (handle (chat_dispatch s) st)) =
       (stdout st ++ [(("Error: " ++ d) ++ nl)%string])%list) /\
  (save_fails (disk st (saves st)) = false ->
   forall t rest,
     history st = t :: rest ->
     fst (process_commands s st) = Ok (Some true, [t], config st) /\
     log_file (snd (process_commands s st)) =
       (log_file st ++
        [(nl ++ clock st ++ nl)%string; json_dump (t :: rest); nl])%list).
Proof.
  intros Hs. split.
  - intros Hf.
    destruct (process_commands_save_fault s st Hs Hf) as (d & k & Hk & Hp).
    exists d, k. split; [assumption|]. split; [assumption|].
    rewrite (chat_dispatch_error _ _ _ _ _ Hp). now repeat split.
  - intros Hf t rest Hh.
    rewrite (process_commands_save s st t rest Hs Hh Hf). now split.
Qed.

(** C6: [read_multiline_input] returns a first line that does not begin
    with a backslash as it is; after a first line that begins with one it
    reads on, whatever the lines begin with, to the end of input and returns
    all the lines, the first included, joined with line feeds.  So the lines
    [\first], [second] and the end of input give [\first], a line feed,
    [second]. *)
Theorem C6_read_multiline_input (prompt : string) (st : State) :
  (forall l rest,
     startswith backslash l = false ->
     read_multiline_input prompt (set_stdin (Line l :: rest) st) =
     (Ok l, set_stdin rest (set_stdout (stdout st ++ [prompt]) st))) /\
  (forall l ls tail,
     startswith backslash l = true ->
     tail = [] \/ (exists rest, tail = Eof :: rest) ->
     read_multiline_input prompt (set_stdin (Line l :: map Line ls ++ tail) st) =
     (Ok (join nl (l :: ls)),
      set_stdout
        (stdout st ++ [prompt; (nl ++ "<end of input>" ++ nl ++ nl)%string])
        (set_stdin (tl tail) st))) /\
  fst (read_multiline_input prompt
         (set_stdin [Line "\first"; Line "second"; Eof] st)) =
  Ok ("\first" ++ nl ++ "second")%string.
Proof.
  split; [|split].
  - intros l rest H. now apply read_single_line.
  - intros l ls tail H Htail. now apply read_continued_lines.
  - change [Line "\first"; Line "second"; Eof]
      with (Line "\first" :: map Line ["second"] ++ [Eof]).
    rewrite (read_continued_lines prompt "\first" ["second"] [Eof] st).
    + reflexivity.
    + reflexivity.
    + right. now exists [].
Qed.

(** C7: for a conversation [t :: rest] and a configuration, [ask_claude]
    sends exactly one request; its system instruction is the content of
    [t], its messages are the turns of [rest] in order, each with its
    content and with the role [assistant] when that is its role and
    [user] otherwise, and its token limit, temperature and model are
    those of the configuration. *)
Theorem C7_ask_claude_request (t : Turn) (rest : list Turn)
    (cfg : ClaudeConfig) (st : State) :
  exists req,
    requests (snd (ask_claude (t :: rest) cfg st)) = (requests st ++ [req])%list /\
    req_system req = content t /\
    Forall2 (fun m msg =>
               content m = content msg /\
               (role msg = "assistant" -> role m = "assistant") /\
               (role msg <> "assistant" -> role m = "user"))
            (req_messages req) rest /\
    req_max_tokens req = max_tokens cfg /\
    req_temperature req = temperature cfg /\
    req_model req = model cfg.
Proof.
  exists (request_of (api_key st) (t :: rest) cfg).
  rewrite ask_claude_spec by discriminate.
  repeat split.
  cbn [request_of req_messages tl]. clear t.
  induction rest as [|m rest IH]; cbn [map]; constructor; [|exact IH].
  cbn [content role]. unfold api_role.
  destruct (String.eqb_spec (role m) "assistant") as [E|E];
    repeat split; congruence.
Qed.

(** C8: when the input is no command and the call of the service raises,
    or the stream raises while it is consumed, the pass ends in the generic
    handler: the error is printed last, the loop goes on, and the
    conversation is the one from before the pass with the user turn
    appended and no assistant turn. *)
Theorem C8_remote_failure (s : string) (st : State) (cls d : string) :
  enters_branch s = false ->
  (let req := request_of (api_key st) (history st ++ [mkTurn "user" s])
                         (config st) in
   remote st (length (requests st)) req = CreateFails cls d \/
   exists chunks,
     remote st (length (requests st)) req = Stream chunks (Some (cls, d))) ->
  fst (handle (chat_dispatch s) st) = Continue /\
  history (snd (handle (chat_dispatch s) st)) =
    (history st ++ [mkTurn "user" s])%list /\
  exists printed,
    stdout (snd (handle (chat_dispatch s) st)) =
      (stdout st ++ printed ++ [(("Error: " ++ d) ++ nl)%string])%list.
Proof.
  intros Helse Hfail. rewrite (handle_chat_dispatch_message s st Helse).
  unfold handle. rewrite chat_message_spec.
  destruct Hfail as [Hfail|[chunks Hfail]]; rewrite Hfail; fields.
  - repeat split. now exists [].
  - repeat split. exists (nl :: delta_texts chunks).
    now rewrite <- app_assoc.
Qed.

(** C9, on the code: when the read at the prompt meets the end of input,
    the pass ends the process with status 0 after printing only the empty
    line and the prompt; the closing message is not printed. *)
Theorem C9_end_of_input_exits_silently (st : State) (rest : list console_event) :
  chat_step (set_stdin (Eof :: rest) st) =
    (Exit 0, set_stdin rest (set_stdout (stdout st ++ [nl; "You: "]) st)) /\
  chat_step (set_stdin [] st) =
    (Exit 0, set_stdin [] (set_stdout (stdout st ++ [nl; "You: "]) st)).
Proof.
  split; unfold chat_step, chat_try, handle, read_multiline_input, bind, print,
    print_end, modify, except_EOFError, input, sys_exit, raise; fields;
    rewrite <- app_assoc; reflexivity.
Qed.

(** C10: an input whose lowercased text begins with [/exit], [/quit] or
    [/bye] without being one of them is no command for [process_commands];
    the pass of the loop that reads it does not end the process but
    appends it as a user turn and sends the conversation, in which it is
    the last message, to the service. *)
Theorem C10_exit_with_trailing_text_is_sent (s : string) (st : State)
    (rest : list console_event) :
  exit_with_trailing_text s = true ->
  process_commands s st = (Ok (None, history st, config st), st) /\
  fst (chat_step (set_stdin (Line s :: rest) st)) = Continue /\
  (exists tail,
     history (snd (chat_step (set_stdin (Line s :: rest) st))) =
       (history st ++ mkTurn "user" s :: tail)%list) /\
  requests (snd (chat_step (set_stdin (Line s :: rest) st))) =
    (requests st ++
     [request_of (api_key st) (history st ++ [mkTurn "user" s]) (config st)])%list /\
  (history st <> [] ->
   exists msgs,
     req_messages
       (request_of (api_key st) (history st ++ [mkTurn "user" s]) (config st)) =
     (msgs ++ [mkTurn "user" s])%list).
Proof.
  intros Hexit.
  pose proof (exit_with_trailing_text_falls_through s Hexit) as Helse.
  assert (Hb : startswith backslash s = false).
  { apply slash_not_backslash. unfold exit_with_trailing_text in Hexit.
    apply andb_true_iff in Hexit. destruct Hexit as [Hpre _].
    repeat rewrite orb_true_iff in Hpre.
    destruct Hpre as [[H|H]|H]; apply startswith_split in H;
      destruct H as [r ->]; reflexivity. }
  split; [now apply process_commands_else|].
  rewrite (chat_step_line s rest st Hb),
    (handle_chat_dispatch_message _ _ Helse).
  destruct (handle_chat_message s
              (set_stdin rest (set_stdout (stdout st ++ [nl; "You: "]) st)))
    as (Hc & _ & Hreq & tail & Hh & _).
  split; [exact Hc|]. split; [now exists tail|]. split; [exact Hreq|].
  intros Hne. now apply request_of_last.
Qed.

End Properties.

(** ** The claims on concrete sessions *)

Import Plain.

(** C1 as stated fails on the empty input: it begins with no command token,
    yet [process_commands] handles it (it prints the help) and the loop
    appends no turn and sends nothing. *)
Lemma C1_empty_input_is_handled :
  no_command_prefix EmptyString = true /\
  fst (process_commands EmptyString state0) =
    Ok (Some true, history state0, config state0) /\
  fst (process_commands EmptyString state0) <>
    Ok (None, history state0, config state0) /\
  history (snd (handle (chat_dispatch EmptyString) state0)) = history state0 /\
  requests (snd (handle (chat_dispatch EmptyString) state0)) = [].
Proof.
  assert (E : fst (process_commands EmptyString state0) =
              Ok (Some true, history state0, config state0)) by reflexivity.
  split; [reflexivity|]. split; [exact E|].
  split; [rewrite E; discriminate|].
  split; reflexivity.
Qed.

Lemma C1_non_command_input_witness :
  "/SYS be terse" <> EmptyString /\ no_command_prefix "/SYS be terse" = true /\
  process_commands "/SYS be terse" state0 =
    (Ok (None, history state0, config state0), state0).
Proof.
  assert (H1 : "/SYS be terse" <> EmptyString) by discriminate.
  assert (H2 : no_command_prefix "/SYS be terse" = true) by reflexivity.
  split; [exact H1|]. split; [exact H2|].
  exact (proj1 (C1_non_command_input "/SYS be terse" state0 H1 H2)).
Defined.

Lemma C2_new_and_save_reset_witness :
  history (snd (handle (chat_dispatch "/Save") state_chat)) =
  [mkTurn "system" "You are a good Claude!"].
Proof.
  refine (proj2 (proj2
    (C2_new_and_save_reset "/Save" state_chat
       (mkTurn "system" "You are a good Claude!")
       [mkTurn "user" "Hello"; mkTurn "assistant" ("Hi there" ++ nl)]
       eq_refl (or_intror (conj eq_refl eq_refl))))).
Defined.

Lemma C3_conversation_invariant_witness :
  conversation_ok (history state_chat) /\
  conversation_ok (history (snd (chat_step state_chat))).
Proof.
  assert (H : conversation_ok (history state_chat)).
  { split; [reflexivity|]. repeat constructor; discriminate. }
  split; [exact H|].
  exact (proj1 (proj2 (proj2 (proj2 (C3_conversation_invariant state_chat H))))).
Defined.

Lemma C4_parse_error_reported_witness :
  exists descr,
    process_commands "/temp abc" state0 =
      (Raise (Exception "ValueError" descr), state0) /\
    temperature (config (snd (handle (chat_dispatch "/temp abc") state0))) =
      temperature (config state0).
Proof.
  destruct (C4_parse_error_reported "/temp abc" state0
              (or_introl (conj eq_refl eq_refl)))
    as (descr & Hp & _ & Ht & _).
  exists descr. split; [exact Hp | exact Ht].
Defined.

Lemma C5_save_appends_before_reset_witness :
  history (snd (handle (chat_dispatch "/save") state_disk_full)) =
  history state_disk_full.
Proof.
  destruct (proj1 (C5_save_appends_before_reset "/save" state_disk_full eq_refl)
              eq_refl)
    as (d & k & _ & _ & _ & Hh & _).
  exact Hh.
Defined.

Lemma C6_read_multiline_input_witness :
  read_multiline_input "You: " (set_stdin [Line "hi"; Line "there"] state0) =
  (Ok "hi", set_stdin [Line "there"] (set_stdout ["You: "] state0)).
Proof.
  exact (proj1 (C6_read_multiline_input "You: " state0) "hi" [Line "there"]
               eq_refl).
Defined.

Lemma C8_remote_failure_witness :
  fst (handle (chat_dispatch "Hello") state_offline) = Continue /\
  history (snd (handle (chat_dispatch "Hello") state_offline)) =
    [mkTurn "system" "You are a good Claude!"; mkTurn "user" "Hello"].
Proof.
  destruct (C8_remote_failure "Hello" state_offline "APIConnectionError"
              "Connection error." eq_refl (or_introl eq_refl))
    as (Hc & Hh & _).
  split; [exact Hc | exact Hh].
Defined.

Lemma C10_exit_with_trailing_text_is_sent_witness :
  exit_with_trailing_text "/exit now" = true /\
  fst (chat_step (set_stdin [Line "/exit now"] state0)) = Continue.
Proof.
  split; [reflexivity|].
  exact (proj1 (proj2
    (C10_exit_with_trailing_text_is_sent "/exit now" state0 [] eq_refl))).
Defined.

(** * Further properties of the program *)

Section Further.

Context {RT : PyRuntime}.

(** ** The remaining branches of [process_commands] *)

Lemma process_commands_sys (s : string) (st : State) (t : Turn)
    (rest : list Turn) :
  startswith "/sys" s = true -> history st = t :: rest ->
  process_commands s st =
  (Ok (Some true, mkTurn (role t) (strip (drop 5 s)) :: rest, config st),
   set_stdout
     (stdout st ++
      [(("System prompt changed to: " ++ strip (drop 5 s)) ++ nl)%string])
     (set_history (mkTurn (role t) (strip (drop 5 s)) :: rest) st)).
Proof.
  intros H Hh. unfold process_commands. rewrite H.
  run_branch. rewrite Hh. reflexivity.
Qed.

Lemma process_commands_temp (s : string) (st : State) (x : pyfloat) :
  startswith "/temp" s = true ->
  float_of_str (strip (drop 5 s)) = Some x ->
  let cfg := mkConfig (max_tokens (config st)) x (model (config st))
                      (system_prompt (config st)) in
  process_commands s st =
  (Ok (Some true, history st, cfg),
   set_stdout
     (stdout st ++ [(("Temperature changed to: " ++ str_float x) ++ nl)%string])
     (set_config cfg st)).
Proof.
  intros H Hp cfg. unfold process_commands.
  assert (H1 : startswith "/sys" s = false).
  { destruct (startswith_split _ _ H) as [r ->]. reflexivity. }
  rewrite H1, H, Hp. reflexivity.
Qed.

Lemma process_commands_max (s : string) (st : State) (n : Z) :
  startswith "/max" s = true ->
  int_of_str (strip (drop 4 s)) = Some n ->
  let cfg := mkConfig n (temperature (config st)) (model (config st))
                      (system_prompt (config st)) in
  process_commands s st =
  (Ok (Some true, history st, cfg),
   set_stdout
     (stdout st ++ [(("Max tokens changed to: " ++ str_int n) ++ nl)%string])
     (set_config cfg st)).
Proof.
  intros H Hp cfg. unfold process_commands.
  assert (H1 : startswith "/sys" s = false /\ startswith "/temp" s = false).
  { destruct (startswith_split _ _ H) as [r ->]. now split. }
  destruct H1 as [H1 H2]. rewrite H1, H2, H, Hp. reflexivity.
Qed.

Lemma process_commands_env (s : string) (st : State) (t : Turn)
    (rest : list Turn) :
  lower s = "/env" -> history st = t :: rest ->
  process_commands s st =
  (Ok (Some true, history st, config st),
   set_stdout
     (stdout st ++
      [(("System prompt: " ++ content t) ++ nl)%string;
       (("Temperature: " ++ str_float (temperature (config st))) ++ nl)%string;
       (("Max tokens: " ++ str_int (max_tokens (config st))) ++ nl)%string])
     st).
Proof.
  intros H Hh. unfold process_commands.
  rewrite (startswith_false_by_lower "/sys" s),
    (startswith_false_by_lower "/temp" s),
    (startswith_false_by_lower "/max" s) by (rewrite H; reflexivity).
  rewrite H. cbn [String.eqb Ascii.eqb Bool.eqb].
  run_branch. rewrite Hh. fields. repeat rewrite <- app_assoc.
  rewrite ?Hh. reflexivity.
Qed.

Lemma process_commands_help (s : string) (st : State) :
  startswith "/help" (lower s) = true \/ s = EmptyString ->
  process_commands s st =
  (Ok (Some true, history st, config st),
   set_stdout (stdout st ++ help_text) st).
Proof.
  intros H.
  assert (Ht : startswith "/sys" s = false /\ startswith "/temp" s = false /\
               startswith "/max" s = false /\
               String.eqb (lower s) "/env" = false /\
               String.eqb (lower s) "/save" = false /\
               String.eqb (lower s) "/new" = false /\
               (startswith "/help" (lower s) || String.eqb s EmptyString) = true).
  { destruct H as [H| ->]; [|now repeat split].
    destruct (startswith_split _ _ H) as [r Hr].
    repeat split; try (apply startswith_false_by_lower);
      try rewrite H; try rewrite Hr; reflexivity. }
  destruct Ht as (H1 & H2 & H3 & H4 & H5 & H6 & H7).
  unfold process_commands. rewrite H1, H2, H3, H4, H5, H6, H7.
  unfold bind at 1. rewrite show_help_spec. reflexivity.
Qed.

Lemma process_commands_exit (s : string) (st : State) :
  mem (lower s) ["/exit"; "/quit"; "/bye"] = true ->
  process_commands s st =
  (Raise (SystemExit 0),
   set_stdout (stdout st ++ [("Exiting gracefully..." ++ nl)%string]) st).
Proof.
  intros H.
  assert (Ht : startswith "/sys" s = false /\ startswith "/temp" s = false /\
               startswith "/max" s = false /\
               String.eqb (lower s) "/env" = false /\
               String.eqb (lower s) "/save" = false /\
               String.eqb (lower s) "/new" = false /\
               (startswith "/help" (lower s) || String.eqb s EmptyString) = false).
  { assert (Hne : String.eqb s EmptyString = false).
    { destruct s; [discriminate H | reflexivity]. }
    rewrite Hne. unfold mem in H. cbn [existsb] in H.
    repeat rewrite orb_true_iff in H.
    destruct H as [H|[H|[H|H]]]; try discriminate H;
      apply String.eqb_eq in H;
      repeat split; try (apply startswith_false_by_lower);
      rewrite H; reflexivity. }
  destruct Ht as (H1 & H2 & H3 & H4 & H5 & H6 & H7).
  unfold process_commands. rewrite H1, H2, H3, H4, H5, H6, H7, H.
  reflexivity.
Qed.

(** ** What [process_commands] leaves alone *)

Lemma process_commands_frame (s : string) (st : State) :
  let r := process_commands s st in
  requests (snd r) = requests st /\
  model (config (snd r)) = model (config st) /\
  system_prompt (config (snd r)) = system_prompt (config st) /\
  (startswith "/temp" s = false ->
   temperature (config (snd r)) = temperature (config st)) /\
  (startswith "/max" s = false ->
   max_tokens (config (snd r)) = max_tokens (config st)) /\
  (exists added,
     log_file (snd r) = (log_file st ++ added)%list /\
     (String.eqb (lower s) "/save" = false -> added = [])) /\
  length (history (snd r)) = length (history st) /\
  match fst r with
  | Ok (res, h', cfg') =>
      cfg' = config (snd r) /\ length h' <= length (history st) /\
      (enters_branch s = true -> res = Some true)
  | Raise (SystemExit c) => c = 0%Z
  | Raise (Exception _ _) => True
  | Raise _ => False
  end.
Proof.
  cbv zeta. remember (process_commands s st) as r eqn:Hr.
  unfold process_commands in Hr. unfold enters_branch.
  destruct (history st) as [|t0 h0] eqn:Hh.
  all: destruct (startswith "/sys" s) eqn:E1; [run_in Hr; frame_done Hh|].
  all: destruct (startswith "/temp" s) eqn:E2;
    [destruct (float_of_str _); run_in Hr; frame_done Hh|].
  all: destruct (startswith "/max" s) eqn:E3;
    [destruct (int_of_str _); run_in Hr; frame_done Hh|].
  all: destruct (String.eqb (lower s) "/env") eqn:E4;
    [run_in Hr; frame_done Hh|].
  all: destruct (String.eqb (lower s) "/save") eqn:E5.
  1, 3: run_in Hr;
    destruct (disk st (saves st)) as [[d|n d]|];
    [| destruct n as [|[|[|n]]]; cbn [Nat.eqb] in Hr |];
    cbv beta iota in Hr; frame_done Hh;
    (eexists; split; [repeat rewrite <- app_assoc; reflexivity
                     | discriminate]).
  all: destruct (String.eqb (lower s) "/new") eqn:E6;
    [run_in Hr; frame_done Hh|].
  all: destruct (startswith "/help" (lower s) || String.eqb s EmptyString) eqn:E7;
    [unfold bind at 1 in Hr; rewrite show_help_spec in Hr; run_in Hr;
     frame_done Hh|].
  all: destruct (mem (lower s) ["/exit"; "/quit"; "/bye"]) eqn:E8;
    [run_in Hr; frame_done Hh|].
  all: run_in Hr; frame_done Hh.
Qed.

(** ** What a pass of the loop leaves alone *)

Lemma chat_dispatch_frame (s : string) (st : State) :
  let st' := snd (handle (chat_dispatch s) st) in
  model (config st') = model (config st) /\
  system_prompt (config st') = system_prompt (config st) /\
  (startswith "/temp" s = false ->
   temperature (config st') = temperature (config st)) /\
  (startswith "/max" s = false ->
   max_tokens (config st') = max_tokens (config st)) /\
  (exists added,
     log_file st' = (log_file st ++ added)%list /\
     (String.eqb (lower s) "/save" = false -> added = [])) /\
  (enters_branch s = true ->
   requests st' = requests st /\ length (history st') <= length (history st)) /\
  (forall c, fst (handle (chat_dispatch s) st) = Exit c -> c = 0%Z).
Proof.
  pose proof (process_commands_frame s st) as F. cbv zeta in F. cbv zeta.
  remember (handle (chat_dispatch s) st) as r eqn:Hr.
  unfold handle, chat_dispatch, bind at 1 in Hr.
  destruct (process_commands s st) as [[[[res h'] cfg']|e] st1].
  - cbn [fst snd] in F.
    destruct F as (Freq & Fm & Fs & Ft & Fx & (added & Hl & Hn) & Flen & Fcfg
                   & Fh & Fres).
    subst cfg'.
    unfold bind at 1, modify at 1 in Hr. unfold bind at 1, modify at 1 in Hr.
    destruct res as [b|].
    + unfold ret in Hr. subst r. project.
      repeat split; auto; try (now exists added); intros c H; discriminate.
    + assert (Hb : enters_branch s = false).
      { destruct (enters_branch s); [now specialize (Fres eq_refl)|reflexivity]. }
      rewrite Hb. rewrite chat_message_spec in Hr.
      destruct (remote _ _ _) as [cls d|chunks [[cls d]|]]; subst r; project;
        repeat split; auto; try (now exists added); try congruence;
        intros c H; discriminate.
  - cbn [fst snd] in F.
    destruct F as (Freq & Fm & Fs & Ft & Fx & (added & Hl & Hn) & Flen & Fe).
    destruct e; try contradiction; subst r; project;
      repeat split; auto; try (now exists added); try lia;
      intros c H; try discriminate; congruence.
Qed.

Lemma read_more_raises (evs : list console_event) :
  forall acc e rest,
    read_more evs acc = (Raise e, rest) -> e = KeyboardInterrupt.
Proof.
  induction evs as [|[l| |] evs IH]; intros acc e rest H; simpl in H;
    try discriminate.
  - now apply (IH _ _ _ H).
  - now injection H as <- _.
Qed.

(** [read_multiline_input] touches the console only; it raises nothing but
    [KeyboardInterrupt] and [SystemExit] with status 0. *)
Lemma read_multiline_input_console (prompt : string) (st : State) :
  exists i o,
    snd (read_multiline_input prompt st) = set_stdin i (set_stdout o st) /\
    match fst (read_multiline_input prompt st) with
    | Raise (SystemExit c) => c = 0%Z
    | Raise EOFError => False
    | Raise (Exception _ _) => False
    | _ => True
    end.
Proof.
  remember (read_multiline_input prompt st) as r eqn:Hr.
  unfold read_multiline_input, bind at 1, print_end, modify in Hr.
  unfold bind at 1, except_EOFError, input, sys_exit, raise in Hr. fields.
  destruct (stdin st) as [|[l| |] rest]; fields;
    try (subst r; do 2 eexists; split; [reflexivity | exact I || reflexivity]).
  destruct (startswith backslash l); cbn [negb] in Hr; fields.
  - destruct (read_more rest [l]) as [[lines|e] rest'] eqn:E;
      unfold bind, print, print_end, modify, ret in Hr; fields; subst r;
      cbn [fst snd]; do 2 eexists; (split; [reflexivity|]).
    + exact I.
    + now rewrite (read_more_raises _ _ _ _ E).
  - unfold ret in Hr. subst r. do 2 eexists. split; [reflexivity | exact I].
Qed.

(** A pass of the loop ends the process with status 0 or not at all, and
    never touches the model name or the [system_prompt] of the
    configuration. *)
Lemma chat_step_frame (st : State) :
  model (config (snd (chat_step st))) = model (config st) /\
  system_prompt (config (snd (chat_step st))) = system_prompt (config st) /\
  (forall c, fst (chat_step st) = Exit c -> c = 0%Z).
Proof.
  rewrite chat_step_cases.
  destruct (read_multiline_input_console "You: "
              (set_stdout (stdout st ++ [nl]) st)) as (i & o & Hst & He).
  destruct (read_multiline_input _ _) as [[s|e] st1]; cbn [fst snd] in *.
  - pose proof (chat_dispatch_frame s st1) as F. cbv zeta in F.
    destruct F as (Fm & Fs & _ & _ & _ & _ & Fc).
    split; [rewrite Fm, Hst; reflexivity|].
    split; [rewrite Fs, Hst; reflexivity | exact Fc].
  - subst st1. unfold handle, raise.
    destruct e; try contradiction; fields; repeat split; intros c0 H;
      try discriminate. congruence.
Qed.

Lemma chat_loop_status (fuel : nat) :
  forall st c st', chat_loop fuel st = Some (c, st') -> c = 0%Z.
Proof.
  induction fuel as [|fuel IH]; intros st c st' H; [discriminate|].
  simpl in H. destruct (chat_step st) as [[|c1] st1] eqn:E.
  - now apply (IH st1 c st').
  - injection H as <- <-.
    apply (proj2 (proj2 (chat_step_frame st))). now rewrite E.
Qed.

Lemma startswith_append (p a b : string) :
  startswith p a = true -> startswith p (a ++ b) = true.
Proof.
  revert a; induction p as [|c p IH]; intros a H; [reflexivity|].
  destruct a as [|d a]; [discriminate|]. simpl in *.
  destruct (Ascii.eqb c d); [now apply IH | discriminate].
Qed.

Lemma backslash_falls_through (s : string) :
  startswith backslash s = true -> enters_branch s = false.
Proof.
  intros H. destruct (startswith_split _ _ H) as [r ->]. reflexivity.
Qed.

Lemma read_more_interrupted (ls : list string) :
  forall acc rest,
    read_more (map Line ls ++ Interrupt :: rest) acc =
    (Raise KeyboardInterrupt, rest).
Proof.
  induction ls as [|l ls IH]; intros acc rest; simpl; [reflexivity | apply IH].
Qed.

(** The next request after a pass that left the state [st1], for an input
    that is no command. *)
Lemma next_request (m : string) (st1 : State) :
  enters_branch m = false ->
  requests (snd (handle (chat_dispatch m) st1)) =
  (requests st1 ++
   [request_of (api_key st1) (history st1 ++ [mkTurn "user" m]) (config st1)])%list.
Proof.
  intros Hm. rewrite (handle_chat_dispatch_message m st1 Hm).
  now destruct (handle_chat_message m st1) as (_ & _ & Hreq & _).
Qed.

(** ** The commands, one by one *)

(** [/sys]: an input that begins with [/sys] replaces the content of the
    first turn by the input from its sixth character on, stripped; the role
    of that turn, the later turns and the configuration stay, nothing is
    sent, and the next request carries the new text as its system
    instruction. *)
Theorem sys_replaces_system_content (s m : string) (st : State) (t : Turn)
    (rest : list Turn) :
  startswith "/sys" s = true -> history st = t :: rest ->
  enters_branch m = false ->
  let st1 := snd (handle (chat_dispatch s) st) in
  fst (handle (chat_dispatch s) st) = Continue /\
  history st1 = mkTurn (role t) (strip (drop 5 s)) :: rest /\
  config st1 = config st /\
  requests st1 = requests st /\
  exists req,
    requests (snd (handle (chat_dispatch m) st1)) = (requests st ++ [req])%list /\
    req_system req = strip (drop 5 s).
Proof.
  intros Hs Hh Hm st1.
  pose proof (process_commands_sys s st t rest Hs Hh) as Hp.
  pose proof (chat_dispatch_handled _ _ _ _ _ _ Hp) as Hd.
  unfold st1. rewrite Hd. cbn [fst snd]. project.
  repeat split. eexists. rewrite (next_request m _ Hm). project.
  split; reflexivity.
Qed.

(** [/temp]: an input that begins with [/temp] and whose argument [float()]
    accepts sets the temperature to that number and leaves the rest of the
    configuration and the conversation alone; nothing is sent, and the next
    request carries the new temperature. *)
Theorem temp_sets_temperature (s m : string) (st : State) (x : pyfloat) :
  startswith "/temp" s = true ->
  float_of_str (strip (drop 5 s)) = Some x ->
  enters_branch m = false ->
  let st1 := snd (handle (chat_dispatch s) st) in
  fst (handle (chat_dispatch s) st) = Continue /\
  config st1 =
    mkConfig (max_tokens (config st)) x (model (config st))
             (system_prompt (config st)) /\
  history st1 = history st /\
  requests st1 = requests st /\
  exists req,
    requests (snd (handle (chat_dispatch m) st1)) = (requests st ++ [req])%list /\
    req_temperature req = x /\ req_max_tokens req = max_tokens (config st).
Proof.
  intros Hs Hx Hm st1.
  pose proof (process_commands_temp s st x Hs Hx) as Hp. cbv zeta in Hp.
  pose proof (chat_dispatch_handled _ _ _ _ _ _ Hp) as Hd.
  unfold st1. rewrite Hd. cbn [fst snd]. project.
  repeat split. eexists. rewrite (next_request m _ Hm). project.
  repeat split.
Qed.

(** [/max]: an input that begins with [/max] and whose argument [int()]
    accepts sets the token limit to that number and leaves the rest of the
    configuration and the conversation alone; nothing is sent, and the next
    request carries the new limit. *)
Theorem max_sets_max_tokens (s m : string) (st : State) (n : Z) :
  startswith "/max" s = true ->
  int_of_str (strip (drop 4 s)) = Some n ->
  enters_branch m = false ->
  let st1 := snd (handle (chat_dispatch s) st) in
  fst (handle (chat_dispatch s) st) = Continue /\
  config st1 =
    mkConfig n (temperature (config st)) (model (config st))
             (system_prompt (config st)) /\
  history st1 = history st /\
  requests st1 = requests st /\
  exists req,
    requests (snd (handle (chat_dispatch m) st1)) = (requests st ++ [req])%list /\
    req_max_tokens req = n /\ req_temperature req = temperature (config st).
Proof.
  intros Hs Hn Hm st1.
  pose proof (process_commands_max s st n Hs Hn) as Hp. cbv zeta in Hp.
  pose proof (chat_dispatch_handled _ _ _ _ _ _ Hp) as Hd.
  unfold st1. rewrite Hd. cbn [fst snd]. project.
  repeat split. eexists. rewrite (next_request m _ Hm). project.
  repeat split.
Qed.

(** [/env], in any letter case: the pass prints the content of the system
    turn, the temperature and the token limit, one per line, and changes
    nothing else. *)
Theorem env_prints_and_changes_nothing (s : string) (st : State) (t : Turn)
    (rest : list Turn) :
  lower s = "/env" -> history st = t :: rest ->
  handle (chat_dispatch s) st =
  (Continue,
   set_stdout
     (stdout st ++
      [(("System prompt: " ++ content t) ++ nl)%string;
       (("Temperature: " ++ str_float (temperature (config st))) ++ nl)%string;
       (("Max tokens: " ++ str_int (max_tokens (config st))) ++ nl)%string])
     st).
Proof.
  intros Hs Hh.
  rewrite (chat_dispatch_handled _ _ _ _ _ _ (process_commands_env s st t rest Hs Hh)).
  destruct st; reflexivity.
Qed.

(** [/help]: an input whose lowercased text begins with [/help], and the
    empty input, print the eight lines of the command reference and change
    nothing else. *)
Theorem help_prints_and_changes_nothing (s : string) (st : State) :
  startswith "/help" (lower s) = true \/ s = EmptyString ->
  handle (chat_dispatch s) st =
  (Continue, set_stdout (stdout st ++ help_text) st).
Proof.
  intros H.
  rewrite (chat_dispatch_handled _ _ _ _ _ _ (process_commands_help s st H)).
  destruct st; reflexivity.
Qed.

(** [/exit], [/quit], [/bye], in any letter case: the pass that reads one
    of them prints the farewell and ends the process with status 0; the
    conversation and the configuration are as they were and nothing is
    sent. *)
Theorem exit_commands_end_the_process (s : string) (st : State)
    (rest : list console_event) :
  mem (lower s) ["/exit"; "/quit"; "/bye"] = true ->
  chat_step (set_stdin (Line s :: rest) st) =
  (Exit 0,
   set_stdin rest
     (set_stdout
        (stdout st ++ [nl; "You: "; ("Exiting gracefully..." ++ nl)%string])
        st)).
Proof.
  intros H.
  assert (Hb : startswith backslash s = false).
  { apply slash_not_backslash. unfold mem in H. cbn [existsb] in H.
    repeat rewrite orb_true_iff in H.
    destruct H as [H|[H|[H|H]]]; try discriminate H;
      apply String.eqb_eq in H; rewrite H; reflexivity. }
  rewrite (chat_step_line s rest st Hb).
  unfold handle, chat_dispatch, bind at 1.
  rewrite (process_commands_exit s _ H). project.
  unfold set_stdin, set_stdout. project. rewrite <- app_assoc. reflexivity.
Qed.

(** ** Which inputs reach the model *)

(** An input that enters a branch of [process_commands] is never sent: the
    pass leaves the list of requests as it was and adds no turn to the
    conversation, whether the command succeeds, raises or exits. *)
Theorem commands_are_never_sent (s : string) (st : State) :
  enters_branch s = true ->
  requests (snd (handle (chat_dispatch s) st)) = requests st /\
  length (history (snd (handle (chat_dispatch s) st))) <= length (history st).
Proof.
  intros H. pose proof (chat_dispatch_frame s st) as F. cbv zeta in F.
  destruct F as (_ & _ & _ & _ & _ & F & _). exact (F H).
Qed.

(** The commands with an argument are matched in lower case only: an input
    that begins with [/sys], [/temp] or [/max] in another letter case is no
    command; it changes no setting, it is appended as a user turn, and one
    request goes out, with the input as the last message of the
    conversation it carries. *)
Theorem argument_commands_are_case_sensitive (s : string) (st : State) :
  startswith "/sys" (lower s) || startswith "/temp" (lower s)
  || startswith "/max" (lower s) = true ->
  startswith "/sys" s = false -> startswith "/temp" s = false ->
  startswith "/max" s = false ->
  process_commands s st = (Ok (None, history st, config st), st) /\
  config (snd (handle (chat_dispatch s) st)) = config st /\
  (exists tail,
     history (snd (handle (chat_dispatch s) st)) =
     (history st ++ mkTurn "user" s :: tail)%list) /\
  requests (snd (handle (chat_dispatch s) st)) =
    (requests st ++
     [request_of (api_key st) (history st ++ [mkTurn "user" s]) (config st)])%list /\
  (history st <> [] ->
   exists msgs,
     req_messages
       (request_of (api_key st) (history st ++ [mkTurn "user" s]) (config st)) =
     (msgs ++ [mkTurn "user" s])%list).
Proof.
  intros Hl H1 H2 H3.
  assert (Helse : enters_branch s = false).
  { unfold enters_branch. rewrite H1, H2, H3.
    assert (Hne : String.eqb s EmptyString = false).
    { destruct s; [discriminate Hl | reflexivity]. }
    rewrite Hne. repeat rewrite orb_true_iff in Hl.
    destruct Hl as [[H|H]|H]; apply startswith_split in H;
      destruct H as [r ->]; reflexivity. }
  split; [now apply process_commands_else|].
  rewrite (handle_chat_dispatch_message s st Helse).
  destruct (handle_chat_message s st) as (_ & Hc & Hreq & tail & Hh & _).
  split; [exact Hc|]. split; [now exists tail|]. split; [exact Hreq|].
  intros Hne. now apply request_of_last.
Qed.

(** The commands without an argument are matched whole: an input that
    begins with [/env], [/save] or [/new] (in any letter case) and goes on
    is no command; nothing is saved, the input is appended as a user turn,
    and one request goes out, with the input as the last message of the
    conversation it carries. *)
Theorem plain_commands_match_whole_input (s : string) (st : State) :
  startswith "/env" (lower s) || startswith "/save" (lower s)
  || startswith "/new" (lower s) = true ->
  mem (lower s) ["/env"; "/save"; "/new"] = false ->
  process_commands s st = (Ok (None, history st, config st), st) /\
  log_file (snd (handle (chat_dispatch s) st)) = log_file st /\
  (exists tail,
     history (snd (handle (chat_dispatch s) st)) =
     (history st ++ mkTurn "user" s :: tail)%list) /\
  requests (snd (handle (chat_dispatch s) st)) =
    (requests st ++
     [request_of (api_key st) (history st ++ [mkTurn "user" s]) (config st)])%list /\
  (history st <> [] ->
   exists msgs,
     req_messages
       (request_of (api_key st) (history st ++ [mkTurn "user" s]) (config st)) =
     (msgs ++ [mkTurn "user" s])%list).
Proof.
  intros Hl Hm.
  assert (Helse : enters_branch s = false).
  { unfold enters_branch.
    assert (Hne : String.eqb s EmptyString = false).
    { destruct s; [discriminate Hl | reflexivity]. }
    unfold mem in Hm. cbn [existsb] in Hm.
    repeat rewrite orb_false_iff in Hm. destruct Hm as (M1 & M2 & M3 & _).
    rewrite Hne, M1, M2, M3.
    rewrite (startswith_false_by_lower "/sys" s),
      (startswith_false_by_lower "/temp" s),
      (startswith_false_by_lower "/max" s);
      repeat rewrite orb_true_iff in Hl;
      destruct Hl as [[H|H]|H]; apply startswith_split in H;
      destruct H as [r ->]; reflexivity. }
  split; [now apply process_commands_else|].
  pose proof (chat_dispatch_frame s st) as F. cbv zeta in F.
  destruct F as (_ & _ & _ & _ & (added & Hlog & Hn) & _).
  split.
  - rewrite Hlog, Hn, app_nil_r; [reflexivity|].
    destruct (String.eqb_spec (lower s) "/save") as [E|]; [|reflexivity].
    unfold mem in Hm. rewrite E in Hm. discriminate Hm.
  - rewrite (handle_chat_dispatch_message s st Helse).
    destruct (handle_chat_message s st) as (_ & _ & Hreq & tail & Hh & _).
    split; [now exists tail|]. split; [exact Hreq|].
    intros Hne. now apply request_of_last.
Qed.

(** A multi-line input is never a command: after a first line that begins
    with a backslash, the lines up to the end of input are joined and
    appended as one user turn, whatever they contain, an [/exit] included,
    and one request goes out, with the joined text as the last message of
    the conversation it carries; the loop goes on with the console after
    the end of input. *)
Theorem multiline_input_is_sent (l : string) (ls : list string)
    (rest : list console_event) (st : State) :
  startswith backslash l = true ->
  let r := chat_step (set_stdin (Line l :: map Line ls ++ Eof :: rest) st) in
  fst r = Continue /\
  stdin (snd r) = rest /\
  (exists tail,
     history (snd r) =
     (history st ++ mkTurn "user" (join nl (l :: ls)) :: tail)%list) /\
  requests (snd r) =
    (requests st ++
     [request_of (api_key st)
        (history st ++ [mkTurn "user" (join nl (l :: ls))]) (config st)])%list /\
  (history st <> [] ->
   exists msgs,
     req_messages
       (request_of (api_key st)
          (history st ++ [mkTurn "user" (join nl (l :: ls))]) (config st)) =
     (msgs ++ [mkTurn "user" (join nl (l :: ls))])%list).
Proof.
  intros Hl r. unfold r. rewrite chat_step_cases.
  change (set_stdout (stdout (set_stdin (Line l :: map Line ls ++ Eof :: rest) st)
                      ++ [nl])
            (set_stdin (Line l :: map Line ls ++ Eof :: rest) st))
    with (set_stdin (Line l :: map Line ls ++ Eof :: rest)
            (set_stdout (stdout st ++ [nl]) st)).
  rewrite (read_continued_lines "You: " l ls (Eof :: rest) _ Hl)
    by (right; now exists rest).
  assert (Hj : startswith backslash (join nl (l :: ls)) = true).
  { destruct ls as [|l1 ls]; [exact Hl|].
    change (join nl (l :: l1 :: ls)) with (l ++ nl ++ join nl (l1 :: ls))%string.
    now apply startswith_append. }
  pose proof (backslash_falls_through _ Hj) as Helse.
  rewrite (handle_chat_dispatch_message _ _ Helse).
  match goal with
  | |- context [handle (chat_message ?m) ?x] =>
      destruct (handle_chat_message m x) as (Hc & _ & Hreq & tail & Hh & _);
      pose proof (chat_message_stdin m x) as Hin
  end.
  split; [exact Hc|]. split; [exact Hin|]. split; [now exists tail|].
  split; [exact Hreq|]. intros Hne. now apply request_of_last.
Qed.

(** An ordinary exchange: when the input is no command and the stream ends
    normally, the pass prints every [content_block_delta] text as it comes
    (events of other types are skipped) and appends two turns, the input as
    the user's and the texts put together, with a line feed after them, as
    the assistant's. *)
Theorem reply_is_assembled_from_the_stream (s : string) (st : State)
    (chunks : list Chunk) :
  enters_branch s = false ->
  remote st (length (requests st))
         (request_of (api_key st) (history st ++ [mkTurn "user" s]) (config st)) =
    Stream chunks None ->
  fst (handle (chat_dispatch s) st) = Continue /\
  history (snd (handle (chat_dispatch s) st)) =
    (history st ++
     [mkTurn "user" s;
      mkTurn "assistant" (concat_texts (delta_texts chunks) ++ nl)])%list /\
  stdout (snd (handle (chat_dispatch s) st)) =
    (stdout st ++ nl :: delta_texts chunks ++ [(nl ++ nl)%string])%list.
Proof.
  intros Helse Hr. rewrite (handle_chat_dispatch_message s st Helse).
  unfold handle. rewrite chat_message_spec. rewrite Hr. project.
  repeat split. now rewrite <- app_assoc.
Qed.

(** After [/new] the next request carries the system text as before and,
    as its only message, the new input: the earlier turns are gone, the
    configuration is kept. *)
Theorem new_then_message_sends_only_the_message (s m : string) (st : State)
    (t : Turn) (rest : list Turn) :
  lower s = "/new" -> history st = t :: rest -> enters_branch m = false ->
  let st1 := snd (handle (chat_dispatch s) st) in
  config st1 = config st /\
  exists req,
    requests (snd (handle (chat_dispatch m) st1)) = (requests st ++ [req])%list /\
    req_system req = content t /\
    req_messages req = [mkTurn "user" m].
Proof.
  intros Hs Hh Hm st1.
  pose proof (process_commands_new s st t rest Hs Hh) as Hp.
  pose proof (chat_dispatch_handled _ _ _ _ _ _ Hp) as Hd.
  unfold st1. rewrite Hd. cbn [fst snd]. project.
  split; [reflexivity|]. eexists. rewrite (next_request m _ Hm). project.
  repeat split.
Qed.

(** A failed request leaves its user turn in the conversation: when the
    call of the service raises for one input, the request for the next
    input carries both inputs, as two user messages in a row after the
    earlier turns. *)
Theorem failed_turn_is_sent_again (m1 m2 cls d : string) (st : State) (t : Turn)
    (rest : list Turn) :
  enters_branch m1 = false -> enters_branch m2 = false ->
  history st = t :: rest ->
  remote st (length (requests st))
         (request_of (api_key st) (history st ++ [mkTurn "user" m1]) (config st)) =
    CreateFails cls d ->
  let st1 := snd (handle (chat_dispatch m1) st) in
  history st1 = (t :: rest ++ [mkTurn "user" m1])%list /\
  exists req1 req2,
    requests (snd (handle (chat_dispatch m2) st1)) =
      (requests st ++ [req1; req2])%list /\
    req_system req2 = content t /\
    req_messages req2 =
      (map (fun msg => mkTurn (api_role msg) (content msg)) rest ++
       [mkTurn "user" m1; mkTurn "user" m2])%list.
Proof.
  intros H1 H2 Hh Hr st1.
  assert (Hst1 : handle (chat_dispatch m1) st =
                 (Continue,
                  set_stdout (stdout st ++ [(("Error: " ++ d) ++ nl)%string])
                    (set_requests
                       (requests st ++
                        [request_of (api_key st)
                           (history st ++ [mkTurn "user" m1]) (config st)])
                       (set_history (history st ++ [mkTurn "user" m1]) st)))).
  { rewrite (handle_chat_dispatch_message m1 st H1).
    unfold handle. rewrite chat_message_spec. rewrite Hr. reflexivity. }
  unfold st1. rewrite Hst1. cbn [snd]. project. rewrite Hh.
  split; [reflexivity|].
  do 2 eexists. rewrite (next_request m2 _ H2). project.
  rewrite <- app_assoc. split; [reflexivity|].
  split; [reflexivity|].
  cbn [request_of req_messages app tl]. rewrite <- app_assoc, map_app.
  reflexivity.
Qed.

(** ** The loop as a whole *)

(** On any finite console input [chat] ends, and it ends with status 0:
    every pass that does not end the process takes at least one event from
    the console, and no pass ends it with another status. *)
Theorem chat_ends_with_status_0 (st : State) :
  exists st', chat st = Some (0%Z, st').
Proof.
  destruct (chat_terminates st) as (c & st' & H).
  exists st'. rewrite H. f_equal. f_equal.
  unfold chat in H. exact (chat_loop_status _ _ _ _ H).
Qed.

(** No pass of the loop changes the model name or the [system_prompt]
    field of the configuration ([/sys] changes the system turn, not the
    configuration); a pass changes the temperature only when the input
    begins with [/temp], and the token limit only when it begins with
    [/max]. *)
Theorem configuration_changes_only_by_its_commands (st : State) :
  model (config (snd (chat_step st))) = model (config st) /\
  system_prompt (config (snd (chat_step st))) = system_prompt (config st) /\
  forall s,
    (startswith "/temp" s = false ->
     temperature (config (snd (handle (chat_dispatch s) st))) =
     temperature (config st)) /\
    (startswith "/max" s = false ->
     max_tokens (config (snd (handle (chat_dispatch s) st))) =
     max_tokens (config st)).
Proof.
  destruct (chat_step_frame st) as (Hm & Hs & _).
  split; [exact Hm|]. split; [exact Hs|]. intros s.
  pose proof (chat_dispatch_frame s st) as F. cbv zeta in F.
  destruct F as (_ & _ & Ft & Fx & _). now split.
Qed.

(** The log file is only ever appended to, and only by [/save]: a pass on
    any other input leaves it as it was. *)
Theorem log_file_changes_only_on_save (s : string) (st : State) :
  exists added,
    log_file (snd (handle (chat_dispatch s) st)) = (log_file st ++ added)%list /\
    (String.eqb (lower s) "/save" = false -> added = []).
Proof.
  pose proof (chat_dispatch_frame s st) as F. cbv zeta in F.
  destruct F as (_ & _ & _ & _ & F & _). exact F.
Qed.

(** An interrupt at the prompt, or while the lines of a multi-line input
    are read, ends the pass with the notice [Interrupted!]: the lines read
    so far are dropped, the conversation and the configuration are as they
    were, nothing is sent, and the loop goes on. *)
Theorem interrupt_drops_the_input (st : State) (rest : list console_event) :
  chat_step (set_stdin (Interrupt :: rest) st) =
    (Continue,
     set_stdin rest
       (set_stdout (stdout st ++ [nl; "You: "; ("Interrupted!" ++ nl)%string])
                   st)) /\
  forall l ls,
    startswith backslash l = true ->
    chat_step (set_stdin (Line l :: map Line ls ++ Interrupt :: rest) st) =
    (Continue,
     set_stdin rest
       (set_stdout (stdout st ++ [nl; "You: "; ("Interrupted!" ++ nl)%string])
                   st)).
Proof.
  split.
  - unfold chat_step, chat_try, handle, read_multiline_input, bind, print,
      print_end, modify, except_EOFError, input, sys_exit, raise; fields.
    rewrite <- !app_assoc. reflexivity.
  - intros l ls Hl.
    unfold chat_step, chat_try, handle, read_multiline_input, bind at 1,
      print, print_end, modify.
    unfold bind at 1. unfold bind at 1. unfold bind at 1.
    unfold except_EOFError, input. fields. rewrite Hl. cbn [negb]. fields.
    rewrite read_more_interrupted. fields.
    rewrite <- !app_assoc. reflexivity.
Qed.

End Further.

(** ** The further properties on concrete sessions *)

Lemma sys_replaces_system_content_witness :
  history (snd (handle (chat_dispatch "/sys  be nice ") state_chat)) =
  mkTurn "system" (strip (drop 5 "/sys  be nice "))
  :: [mkTurn "user" "Hello"; mkTurn "assistant" ("Hi there" ++ nl)].
Proof.
  exact (proj1 (proj2
    (sys_replaces_system_content "/sys  be nice " "Hello" state_chat
       (mkTurn "system" "You are a good Claude!")
       [mkTurn "user" "Hello"; mkTurn "assistant" ("Hi there" ++ nl)]
       eq_refl eq_refl eq_refl))).
Defined.

Lemma temp_sets_temperature_witness :
  fst (handle (chat_dispatch "/temp 0.5") state0) = Continue.
Proof.
  exact (proj1
    (temp_sets_temperature "/temp 0.5" "Hello" state0 "0.5"
       eq_refl eq_refl eq_refl)).
Defined.

Lemma max_sets_max_tokens_witness :
  fst (handle (chat_dispatch "/max 12") state0) = Continue.
Proof.
  exact (proj1
    (max_sets_max_tokens "/max 12" "Hello" state0 12%Z
       eq_refl eq_refl eq_refl)).
Defined.

Lemma env_prints_and_changes_nothing_witness :
  fst (handle (chat_dispatch "/ENV") state0) = Continue.
Proof.
  exact (f_equal fst
    (env_prints_and_changes_nothing "/ENV" state0
       (mkTurn "system" "You are a good Claude!") [] eq_refl eq_refl)).
Defined.

Lemma help_prints_and_changes_nothing_witness :
  fst (handle (chat_dispatch "/Help me") state0) = Continue.
Proof.
  exact (f_equal fst
    (help_prints_and_changes_nothing "/Help me" state0 (or_introl eq_refl))).
Defined.

Lemma exit_commands_end_the_process_witness :
  fst (chat_step (set_stdin [Line "/QUIT"] state_chat)) = Exit 0.
Proof.
  exact (f_equal fst
    (exit_commands_end_the_process "/QUIT" state_chat [] eq_refl)).
Defined.

Lemma commands_are_never_sent_witness :
  requests (snd (handle (chat_dispatch "/new") state_chat)) =
  requests state_chat.
Proof.
  exact (proj1 (commands_are_never_sent "/new" state_chat eq_refl)).
Defined.

Lemma argument_commands_are_case_sensitive_witness :
  requests (snd (handle (chat_dispatch "/TEMP 0.2") state0)) =
  (requests state0 ++
   [request_of (api_key state0) (history state0 ++ [mkTurn "user" "/TEMP 0.2"])
               (config state0)])%list.
Proof.
  exact (proj1 (proj2 (proj2 (proj2
    (argument_commands_are_case_sensitive "/TEMP 0.2" state0
       eq_refl eq_refl eq_refl eq_refl))))).
Defined.

Lemma plain_commands_match_whole_input_witness :
  requests (snd (handle (chat_dispatch "/save it") state_chat)) =
  (requests state_chat ++
   [request_of (api_key state_chat)
               (history state_chat ++ [mkTurn "user" "/save it"])
               (config state_chat)])%list.
Proof.
  exact (proj1 (proj2 (proj2 (proj2
    (plain_commands_match_whole_input "/save it" state_chat
       eq_refl eq_refl))))).
Defined.

Lemma multiline_input_is_sent_witness :
  requests
    (snd (chat_step
            (set_stdin (Line "\first" :: map Line ["/exit"] ++ Eof :: [])
                       state0))) =
  (requests state0 ++
   [request_of (api_key state0)
               (history state0 ++ [mkTurn "user" (join nl ["\first"; "/exit"])])
               (config state0)])%list.
Proof.
  exact (proj1 (proj2 (proj2 (proj2
    (multiline_input_is_sent "\first" ["/exit"] [] state0 eq_refl))))).
Defined.

Lemma reply_is_assembled_from_the_stream_witness :
  history (snd (handle (chat_dispatch "Hello") state0)) =
  (history state0 ++
   [mkTurn "user" "Hello";
    mkTurn "assistant"
      (concat_texts
         (delta_texts [ContentBlockDelta "Hi"; ContentBlockDelta " there"])
       ++ nl)])%list.
Proof.
  exact (proj1 (proj2
    (reply_is_assembled_from_the_stream "Hello" state0
       [ContentBlockDelta "Hi"; ContentBlockDelta " there"]
       eq_refl eq_refl))).
Defined.

Lemma new_then_message_sends_only_the_message_witness :
  config (snd (handle (chat_dispatch "/new") state_chat)) = config state_chat.
Proof.
  exact (proj1
    (new_then_message_sends_only_the_message "/new" "Hi again" state_chat
       (mkTurn "system" "You are a good Claude!")
       [mkTurn "user" "Hello"; mkTurn "assistant" ("Hi there" ++ nl)]
       eq_refl eq_refl eq_refl)).
Defined.

Lemma configuration_changes_only_by_its_commands_witness :
  temperature (config (snd (handle (chat_dispatch "/max 5") state0))) =
  temperature (config state0).
Proof.
  exact (proj1
    (proj2 (proj2 (configuration_changes_only_by_its_commands state0))
       "/max 5") eq_refl).
Defined.

Lemma log_file_changes_only_on_save_witness :
  exists added,
    log_file (snd (handle (chat_dispatch "/new") state_chat)) =
      (log_file state_chat ++ added)%list /\ added = [].
Proof.
  destruct (log_file_changes_only_on_save "/new" state_chat)
    as (added & H & Hn).
  exists added. split; [exact H | exact (Hn eq_refl)].
Defined.

Lemma interrupt_drops_the_input_witness :
  fst (chat_step
         (set_stdin (Line "\a" :: map Line ["b"] ++ Interrupt :: []) state_chat)) =
  Continue.
Proof.
  exact (f_equal fst
    (proj2 (interrupt_drops_the_input state_chat []) "\a" ["b"] eq_refl)).
Defined.

Lemma failed_turn_is_sent_again_witness :
  history (snd (handle (chat_dispatch "Hello") state_offline)) =
  (mkTurn "system" "You are a good Claude!" :: [] ++ [mkTurn "user" "Hello"])%list.
Proof.
  exact (proj1
    (failed_turn_is_sent_again "Hello" "Are you there?" "APIConnectionError"
       "Connection error." state_offline
       (mkTurn "system" "You are a good Claude!") []
       eq_refl eq_refl eq_refl eq_refl)).
Defined.
